(** * Province data access layer: models, loader, lookups, map-layer listing

    A shallow embedding of [src/core/models.py], [src/core/helpers.py] and
    [src/main.py].  Python objects produced by [json.load] are values of
    [pyobj]; a Python [dict] with string keys is a [gmap string _]; raising
    an exception is the left injection of a sum.  The validation performed by
    [BaseModel.model_validate] is written out for the two model classes of
    [models.py] (default configuration: lax mode, unknown keys ignored).

    A Python [str] is held as the bytes of its UTF-8 encoding, every code
    point encoded on its own, so that a lone surrogate is the three bytes
    [ED A0 80] to [ED BF BF].  Comparing two such strings byte by byte
    compares them code point by code point, and an ASCII character is a
    byte that occurs nowhere else. *)

From Stdlib Require Import ZArith Ascii String List Sorting.Sorted.
From Stdlib Require Import Floats.SpecFloat.
From stdpp Require Import gmap strings list fin_maps sorting.

Local Open Scope Z_scope.

(** ** Python values *)

(** What [json.load] can return: [None], [bool], [int], [float], [str],
    [list] and [dict] with [str] keys. *)
#[warnings="-register-all"]
Inductive pyobj : Type :=
| PyNone
| PyBool (b : bool)
| PyInt (z : Z)
| PyFloat (f : spec_float)
| PyStr (s : string)
| PyList (l : list pyobj)
| PyDict (d : gmap string pyobj).

(** Some string of the value, a key or a leaf, satisfies [P]. *)
Fixpoint any_str (P : string -> bool) (v : pyobj) : bool :=
  match v with
  | PyStr s => P s
  | PyList l => existsb (any_str P) l
  | PyDict d => map_fold (fun k x acc => P k || any_str P x || acc) false d
  | _ => false
  end.

(** Some float of the value satisfies [P]. *)
Fixpoint any_float (P : spec_float -> bool) (v : pyobj) : bool :=
  match v with
  | PyFloat f => P f
  | PyList l => existsb (any_float P) l
  | PyDict d => map_fold (fun _ x acc => any_float P x || acc) false d
  | _ => false
  end.

(** The encoding of a code point from U+D800 to U+DFFF: the byte [ED]
    followed by a byte from [A0] on. *)
Fixpoint has_lone_surrogate (s : string) : bool :=
  match s with
  | EmptyString => false
  | String c s' =>
      (Ascii.eqb c "237"
       && match s' with
          | String c' _ => (160 <=? N_of_ascii c')%N
          | EmptyString => false
          end)
      || has_lone_surrogate s'
  end.

Definition is_non_finite (f : spec_float) : bool :=
  match f with
  | S754_nan => true
  | S754_infinity _ => true
  | _ => false
  end.

(** ** Exceptions and results *)

(** The [type] entry of one line of a pydantic [ValidationError]. *)
Inductive error_type : Type :=
| missing
| int_type
| int_parsing
| int_parsing_size
| int_from_float
| finite_number
| string_type
| dict_type
| model_type.

(** One line of a [ValidationError]: where, and what. *)
Record ErrorDetails : Type := mkErrorDetails {
  err_loc : list string;
  err_type : error_type
}.

Inductive exception : Type :=
| FileNotFoundError
| IsADirectoryError
| UnicodeDecodeError
| UnicodeEncodeError
| ValueError (msg : string)
| JSONDecodeError (msg : string)
| ValidationError (title : string) (errors : list ErrorDetails)
| HTTPException (status_code : Z) (detail : string).

(** A call either raises or returns. *)
Definition result (A : Type) : Type := exception + A.
Definition raise {A : Type} (e : exception) : result A := inl e.
Definition ret {A : Type} (a : A) : result A := inr a.

Definition bind {A B : Type} (c : result A) (k : A -> result B) : result B :=
  match c with
  | inl e => inl e
  | inr a => k a
  end.

Notation "x <- c ;; k" := (bind c (fun x => k))
  (at level 100, c at next level, right associativity).

(** ** Validators of pydantic for the field types of [models.py] *)

(** A validator collects the lines of the error it would raise. *)
Definition validation (A : Type) : Type := list ErrorDetails + A.

Definition fail_with {A : Type} (t : error_type) : validation A :=
  inl [mkErrorDetails [] t].

(** Prefix every location with the key or field under which it occurred. *)
Definition with_loc (k : string) (es : list ErrorDetails) : list ErrorDetails :=
  map (fun e => mkErrorDetails (k :: err_loc e) (err_type e)) es.

Definition at_loc {A : Type} (k : string) (r : validation A) : validation A :=
  match r with
  | inl es => inl (with_loc k es)
  | inr a => inr a
  end.

(** Apply a validated constructor to a validated argument; the errors of
    both sides are kept, in field order. *)
Definition vap {A B : Type} (f : validation (A -> B)) (x : validation A)
  : validation B :=
  match f, x with
  | inr g, inr a => inr (g a)
  | inl e1, inl e2 => inl (e1 ++ e2)
  | inl e1, inr _ => inl e1
  | inr _, inl e2 => inl e2
  end.

Infix "<*>" := vap (at level 61, left associativity).

(** *** [int] in lax mode *)

Definition is_digit (c : ascii) : bool :=
  let n := N_of_ascii c in ((48 <=? n) && (n <=? 57))%N.

Definition digit_value (c : ascii) : Z := Z.of_N (N_of_ascii c) - 48.

(** Value of a run of decimal digits, most significant first. *)
Fixpoint digits_value (acc : Z) (s : string) : option Z :=
  match s with
  | EmptyString => Some acc
  | String c s' =>
      if is_digit c then digits_value (10 * acc + digit_value c) s' else None
  end.

(** Strings made of decimal digits only. *)
Fixpoint all_digits (s : string) : bool :=
  match s with
  | EmptyString => true
  | String c s' => is_digit c && all_digits s'
  end.

Fixpoint has_digit (s : string) : bool :=
  match s with
  | EmptyString => false
  | String c s' => is_digit c || has_digit s'
  end.

(** A non-empty run of at most 4300 decimal digits. *)
Definition is_digit_run (s : string) : bool :=
  match s with
  | EmptyString => false
  | String _ _ => all_digits s && (String.length s <=? 4300)%nat
  end.

Section LaxInt.

(** How the validator reads, where an [int] is declared, a string that has
    a digit without being a run of digits (a sign, separators, a decimal
    part of zeros, white space around it), and which kind of error it gives
    a string it refuses.  That is the library's own grammar; the models are
    embedded for every such reading. *)
Variable lenient : string -> error_type + Z.

(** A string where an [int] is declared: a run of digits is the integer it
    writes, a string without any digit is refused, any other string is read
    as the library reads it. *)
Definition str_as_int (str : string) : error_type + Z :=
  if is_digit_run str then
    match digits_value 0 str with
    | Some i => inr i
    | None => inl int_parsing
    end
  else
    match lenient str with
    | inl t => inl t
    | inr i => if has_digit str then inr i else inl int_parsing
    end.

(** A float is accepted when it is finite, has no fractional part and lies
    strictly between the bounds of a signed 64-bit integer. *)
Definition float_as_int (f : spec_float) : error_type + Z :=
  match f with
  | S754_nan => inl finite_number
  | S754_infinity _ => inl finite_number
  | S754_zero _ => inr 0
  | S754_finite s m e =>
      let num := Z.pos m in
      if (e <? 0) && negb (num mod 2 ^ (- e) =? 0) then inl int_from_float
      else
        let mag := if e <? 0 then num / 2 ^ (- e) else num * 2 ^ e in
        let z := if s then - mag else mag in
        if (- 2 ^ 63 <? z) && (z <? 2 ^ 63) then inr z
        else inl int_parsing_size
  end.

(** Lax mode: besides an [int], a [bool], an integral [float] and a numeric
    [str] are taken as integers; anything else is not. *)
Definition validate_int (v : pyobj) : validation Z :=
  let r := match v with
           | PyInt z => inr z
           | PyBool b => inr (if b then 1 else 0)
           | PyFloat f => float_as_int f
           | PyStr s => str_as_int s
           | PyNone => inl int_type
           | PyList _ => inl int_type
           | PyDict _ => inl int_type
           end in
  match r with
  | inl t => fail_with t
  | inr z => inr z
  end.

End LaxInt.

(** *** [str] in lax mode: only a [str] is a [str] *)
Definition validate_str (v : pyobj) : validation string :=
  match v with
  | PyStr s => inr s
  | _ => fail_with string_type
  end.

(** A required field of a model: absent is an error of its own, no default
    is made up. *)
Definition required {A : Type} (validator : pyobj -> validation A)
  (d : gmap string pyobj) (field : string) : validation A :=
  match d !! field with
  | None => inl [mkErrorDetails [field] missing]
  | Some v => at_loc field (validator v)
  end.

(** ** [src/core/models.py] *)

Module models.

(** [class Province(BaseModel)]: eight required fields, two [int] and six
    [str]. *)
Module Province.

Record t : Type := mk {
  id : Z;
  name : string;
  type : string;
  owner : string;
  development : Z;
  trade_goods : string;
  terrain : string;
  description : string
}.

(** The declared fields, in declaration order. *)
Definition model_fields : list string :=
  ["id"; "name"; "type"; "owner"; "development"; "trade_goods";
   "terrain"; "description"].

Section Validation.

Variable lenient : string -> error_type + Z.

(** Validation of one payload.  Only a [dict] is a candidate; each
    declared field is looked up and validated, keys that are not
    declared are never looked at. *)
Definition validate (v : pyobj) : validation t :=
  match v with
  | PyDict d =>
      inr mk
        <*> required (validate_int lenient) d "id"
        <*> required validate_str d "name"
        <*> required validate_str d "type"
        <*> required validate_str d "owner"
        <*> required (validate_int lenient) d "development"
        <*> required validate_str d "trade_goods"
        <*> required validate_str d "terrain"
        <*> required validate_str d "description"
  | _ => fail_with model_type
  end.

Definition model_validate (v : pyobj) : result t :=
  match validate v with
  | inl es => raise (ValidationError "Province" es)
  | inr p => ret p
  end.

End Validation.

Definition model_dump (p : t) : pyobj :=
  PyDict
    (<["id" := PyInt (id p)]>
    (<["name" := PyStr (name p)]>
    (<["type" := PyStr (type p)]>
    (<["owner" := PyStr (owner p)]>
    (<["development" := PyInt (development p)]>
    (<["trade_goods" := PyStr (trade_goods p)]>
    (<["terrain" := PyStr (terrain p)]>
    (<["description" := PyStr (description p)]> ∅)))))))).

End Province.

Section Validation.

Variable lenient : string -> error_type + Z.

(** The lines contributed by one entry of a [dict[str, Province]]. *)
Definition entry_errors (kr : string * validation Province.t)
  : list ErrorDetails :=
  match kr.2 with
  | inl es => with_loc kr.1 es
  | inr _ => []
  end.

Definition entry_value (r : validation Province.t) : option Province.t :=
  match r with
  | inl _ => None
  | inr p => Some p
  end.

(** [dict[str, Province]]: every value is validated; one bad value fails
    the whole mapping, and the error has the lines of every bad value.
    The map does not keep the order in which the document lists its
    entries, so the lines come here in the order in which the map
    enumerates its keys; which lines there are does not depend on it. *)
Definition validate_dict_str_Province (v : pyobj)
  : validation (gmap string Province.t) :=
  match v with
  | PyDict d =>
      let rs := Province.validate lenient <$> d in
      match map_to_list rs ≫= entry_errors with
      | [] => inr (omap entry_value rs)
      | es => inl es
      end
  | _ => fail_with dict_type
  end.

End Validation.

(** [class ProvincesData(BaseModel)]. *)
Module ProvincesData.

Record t : Type := mk {
  provinces : gmap string Province.t
}.

(** [ProvincesData()]: [provinces] comes from [default_factory=dict]. *)
Definition default : t := mk ∅.

Section Validation.

Variable lenient : string -> error_type + Z.

Definition validate (v : pyobj) : validation t :=
  match v with
  | PyDict d =>
      match d !! "provinces" with
      | None => inr default
      | Some x =>
          inr mk
            <*> at_loc "provinces" (validate_dict_str_Province lenient x)
      end
  | _ => fail_with model_type
  end.

Definition model_validate (v : pyobj) : result t :=
  match validate v with
  | inl es => raise (ValidationError "ProvincesData" es)
  | inr pd => ret pd
  end.

End Validation.

Definition model_dump (pd : t) : pyobj :=
  PyDict (<["provinces" := PyDict (Province.model_dump <$> provinces pd)]> ∅).

End ProvincesData.

End models.

(** ** The file system and the JSON decoder *)

(** What a path relative to the working directory names: a regular file with
    its bytes, or a directory with the names of its entries. *)
Inductive node : Type :=
| RegularFile (content : string)
| Directory (entries : list string).

Abbreviation filesystem := (gmap string node).

(** [Path.exists] *)
Definition Path_exists (fs : filesystem) (p : string) : bool :=
  match fs !! p with
  | Some _ => true
  | None => false
  end.

(** [Path.open(encoding="utf-8")], yielding what the file object reads. *)
Definition Path_open (fs : filesystem) (p : string) : result string :=
  match fs !! p with
  | Some (RegularFile content) => ret content
  | Some (Directory _) => raise IsADirectoryError
  | None => raise FileNotFoundError
  end.

(** *** Shell-style patterns, as [Path.glob] applies them to entry names *)

Inductive glob_token : Type :=
| AnyRun              (* [*]: any run of characters, also the empty one *)
| AnyOne              (* [?]: exactly one character *)
| Literal (c : ascii).

(** The pattern language without bracket expressions. *)
Fixpoint translate (pat : string) : list glob_token :=
  match pat with
  | EmptyString => []
  | String "*" pat' => AnyRun :: translate pat'
  | String "?" pat' => AnyOne :: translate pat'
  | String c pat' => Literal c :: translate pat'
  end.

(** A name matches when the whole of it is consumed by the pattern. *)
Fixpoint match_tokens (toks : list glob_token) (name : string) : bool :=
  match toks with
  | [] =>
      match name with
      | EmptyString => true
      | String _ _ => false
      end
  | AnyRun :: toks' =>
      (fix skip (rest : string) : bool :=
         match_tokens toks' rest
         || match rest with
            | EmptyString => false
            | String _ rest' => skip rest'
            end) name
  | AnyOne :: toks' =>
      match name with
      | EmptyString => false
      | String _ name' => match_tokens toks' name'
      end
  | Literal c :: toks' =>
      match name with
      | EmptyString => false
      | String c' name' => Ascii.eqb c c' && match_tokens toks' name'
      end
  end.

Definition fnmatch (name pat : string) : bool :=
  match_tokens (translate pat) name.

(** [Path.glob] with a one-component pattern: the entries of the directory
    whose names match, in the order the directory lists them; nothing when
    the path is not a directory. *)
Definition Path_glob (fs : filesystem) (p pattern : string) : list string :=
  match fs !! p with
  | Some (Directory entries) =>
      List.filter (fun entry => fnmatch entry pattern) entries
  | _ => []
  end.

(** [sorted] on a list of [str]: ascending, characters compared by code. *)
Definition sorted (l : list string) : list string := merge_sort String.le l.

(** ** [src/core/helpers.py] *)

Module helpers.
Section Loader.

Variable lenient : string -> error_type + Z.

(** [json.load] on the bytes of the file: decoding and parsing, either of
    which may raise.  The decoder is the standard library's; the loader is
    verified for every behaviour it may have. *)
Variable json_load : string -> result pyobj.

Definition PROVINCES_FILE : string := "provinces.json".

Definition load_provinces (fs : filesystem) : result models.ProvincesData.t :=
  if negb (Path_exists fs PROVINCES_FILE) then
    ret models.ProvincesData.default
  else
    f <- Path_open fs PROVINCES_FILE ;;
    raw_data <- json_load f ;;
    models.ProvincesData.model_validate lenient raw_data.

End Loader.
End helpers.

(** ** [src/main.py] *)

Module main.

(** A response that has been built, with the content it carries; status
    200. *)
Record JSONResponse : Type := mkJSONResponse {
  content : pyobj
}.

(** [JSONResponse(content=...)]: the body is written out when the response
    is built, with [allow_nan=False] and [ensure_ascii=False], and then
    encoded as UTF-8.  Writing refuses a float that is not finite; encoding
    refuses a string with a lone surrogate.  Integers are written at any
    size. *)
Definition JSONResponse_init (content : pyobj) : result JSONResponse :=
  if any_float is_non_finite content then
    raise (ValueError "Out of range float values are not JSON compliant")
  else if any_str has_lone_surrogate content then
    raise UnicodeEncodeError
  else
    ret (mkJSONResponse content).

Section Serving.

Variable lenient : string -> error_type + Z.
Variable json_load : string -> result pyobj.

Definition PROVINCES_FILE : string := "provinces.json".

Definition load_provinces (fs : filesystem) : result models.ProvincesData.t :=
  if negb (Path_exists fs PROVINCES_FILE) then
    ret models.ProvincesData.default
  else
    f <- Path_open fs PROVINCES_FILE ;;
    raw_data <- json_load f ;;
    models.ProvincesData.model_validate lenient raw_data.

(** [GET /api/provinces] *)
Definition get_provinces (fs : filesystem) : result JSONResponse :=
  provinces_data <- load_provinces fs ;;
  JSONResponse_init (models.ProvincesData.model_dump provinces_data).

(** [GET /api/provinces/{province_id}] *)
Definition get_province (fs : filesystem) (province_id : string)
  : result JSONResponse :=
  provinces_data <- load_provinces fs ;;
  match models.ProvincesData.provinces provinces_data !! province_id with
  | None => raise (HTTPException 404 "Province not found")
  | Some province => JSONResponse_init (models.Province.model_dump province)
  end.

End Serving.

Definition reserved_names : list string := ["data_map.png"; "visual_map.png"].

Definition _get_map_layer_files (fs : filesystem) : list string :=
  let static_path := "static" in
  let map_files :=
    if Path_exists fs static_path then
      foldl
        (fun map_files filename =>
           if bool_decide (filename ∉ reserved_names)
           then map_files ++ [filename]
           else map_files)
        [] (Path_glob fs static_path "*map*.png")
    else [] in
  sorted map_files.

(** [GET /api/map-layers] *)
Definition get_map_layers (fs : filesystem) : result JSONResponse :=
  let map_files := _get_map_layer_files fs in
  JSONResponse_init
    (PyDict (<["layers" := PyList (PyStr <$> map_files)]> ∅)).

End main.

(** ** Test doubles and sample data *)

Import models.

(** A decoder given by a table from file contents to decoded documents;
    any other content is a syntax error. *)
Fixpoint decoder_of_table (table : list (string * pyobj)) (text : string)
  : result pyobj :=
  match table with
  | [] => raise (JSONDecodeError "Expecting value")
  | (t, v) :: table' =>
      if String.eqb t text then ret v else decoder_of_table table' text
  end.

(** A validator that admits, where an [int] is declared, no string beyond
    the runs of digits. *)
Definition lenient_none (s : string) : error_type + Z := inl int_parsing.

(** The record of the example in the specification. *)
Definition scotland : gmap string pyobj :=
  <["id" := PyInt 1]>
  (<["name" := PyStr "Scotland"]>
  (<["type" := PyStr "land"]>
  (<["owner" := PyStr "SCO"]>
  (<["development" := PyInt 3]>
  (<["trade_goods" := PyStr "wool"]>
  (<["terrain" := PyStr "hills"]>
  (<["description" := PyStr "A northern province."]> ∅))))))).

(** A [provinces] mapping with one record, stored under [key]. *)
Definition provinces_of (key : string) (record : gmap string pyobj)
  : gmap string pyobj :=
  <[key := PyDict record]> ∅.

(** The members of a document whose [provinces] member is [ps]. *)
Definition root_of (ps : gmap string pyobj) : gmap string pyobj :=
  <["provinces" := PyDict ps]> ∅.

(** A document with one province stored under [key]. *)
Definition document_of (key : string) (record : gmap string pyobj) : pyobj :=
  PyDict (root_of (provinces_of key record)).

(** A file system whose [provinces.json] holds [content]. *)
Definition fs_with_provinces (content : string) : filesystem :=
  <["provinces.json" := RegularFile content]> ∅.

(** [quoted "k"] is the JSON text of the string [k]. *)
Definition quoted (s : string) : string :=
  String "034" (s +:+ String "034" EmptyString).

(** [{"provinces": {}}] *)
Definition text_no_provinces : string :=
  "{" +:+ quoted "provinces" +:+ ": {}}".

(** [{"provinces": {"SCO": {}}}] *)
Definition text_empty_record : string :=
  "{" +:+ quoted "provinces" +:+ ": {" +:+ quoted "SCO" +:+ ": {}}}".

(** The text of the example document of the specification. *)
Definition text_scotland : string :=
  "{" +:+ quoted "provinces" +:+ ": {" +:+ quoted "SCO" +:+ ": {"
  +:+ quoted "id" +:+ ": 1, "
  +:+ quoted "name" +:+ ": " +:+ quoted "Scotland" +:+ ", "
  +:+ quoted "type" +:+ ": " +:+ quoted "land" +:+ ", "
  +:+ quoted "owner" +:+ ": " +:+ quoted "SCO" +:+ ", "
  +:+ quoted "development" +:+ ": 3, "
  +:+ quoted "trade_goods" +:+ ": " +:+ quoted "wool" +:+ ", "
  +:+ quoted "terrain" +:+ ": " +:+ quoted "hills" +:+ ", "
  +:+ quoted "description" +:+ ": " +:+ quoted "A northern province."
  +:+ "}}}".

(** [{"version": 2}] *)
Definition text_version_only : string :=
  "{" +:+ quoted "version" +:+ ": 2}".

(** The string whose only code point is the lone surrogate U+D800. *)
Definition lone_surrogate : string :=
  String "237" (String "160" (String "128" EmptyString)).

(** [scotland] with the lone surrogate for a name. *)
Definition unnamed : gmap string pyobj :=
  <["name" := PyStr lone_surrogate]> scotland.

(** The text of [text_scotland] with the escape of U+D800 for the name. *)
Definition text_unnamed : string :=
  "{" +:+ quoted "provinces" +:+ ": {" +:+ quoted "SCO" +:+ ": {"
  +:+ quoted "id" +:+ ": 1, "
  +:+ quoted "name" +:+ ": " +:+ quoted "\ud800" +:+ ", "
  +:+ quoted "type" +:+ ": " +:+ quoted "land" +:+ ", "
  +:+ quoted "owner" +:+ ": " +:+ quoted "SCO" +:+ ", "
  +:+ quoted "development" +:+ ": 3, "
  +:+ quoted "trade_goods" +:+ ": " +:+ quoted "wool" +:+ ", "
  +:+ quoted "terrain" +:+ ": " +:+ quoted "hills" +:+ ", "
  +:+ quoted "description" +:+ ": " +:+ quoted "A northern province."
  +:+ "}}}".

(** A decoder that knows the texts above. *)
Definition sample_decoder : string -> result pyobj :=
  decoder_of_table
    [(text_no_provinces, PyDict (<["provinces" := PyDict ∅]> ∅));
     (text_empty_record, document_of "SCO" ∅);
     (text_scotland, document_of "SCO" scotland);
     (text_unnamed, document_of "SCO" unnamed)].

(** The validated form of [scotland]. *)
Definition scotland_province : Province.t :=
  Province.mk 1 "Scotland" "land" "SCO" 3 "wool" "hills"
    "A northern province.".

(** ** The documented file format *)

Definition is_int (v : pyobj) : bool :=
  match v with
  | PyInt _ => true
  | _ => false
  end.

Definition is_str (v : pyobj) : bool :=
  match v with
  | PyStr _ => true
  | _ => false
  end.

Definition member_is (check : pyobj -> bool) (r : gmap string pyobj)
  (field : string) : bool :=
  match r !! field with
  | Some v => check v
  | None => false
  end.

(** An object with exactly the eight members, the two numeric ones JSON
    integers and the six textual ones JSON strings. *)
Definition province_format (v : pyobj) : bool :=
  match v with
  | PyDict r =>
      bool_decide (dom r = list_to_set Province.model_fields)
      && member_is is_int r "id"
      && member_is is_str r "name"
      && member_is is_str r "type"
      && member_is is_str r "owner"
      && member_is is_int r "development"
      && member_is is_str r "trade_goods"
      && member_is is_str r "terrain"
      && member_is is_str r "description"
  | _ => false
  end.

(** An object with the single member [provinces], itself an object all of
    whose members are provinces. *)
Definition provinces_format (doc : pyobj) : bool :=
  match doc with
  | PyDict d =>
      bool_decide (dom d = {["provinces"]})
      && match d !! "provinces" with
         | Some (PyDict ps) =>
             bool_decide (map_Forall (fun _ v => province_format v = true) ps)
         | _ => false
         end
  | _ => false
  end.

Definition is_dict (v : pyobj) : bool :=
  match v with
  | PyDict _ => true
  | _ => false
  end.

(** The values that no rule of lax mode turns into an integer. *)
Definition is_none_list_or_dict (v : pyobj) : bool :=
  match v with
  | PyNone => true
  | PyList _ => true
  | PyDict _ => true
  | _ => false
  end.

(** The fields declared [int], and the fields declared [str]. *)
Definition int_fields : list string := ["id"; "development"].

Definition str_fields : list string :=
  ["name"; "type"; "owner"; "trade_goods"; "terrain"; "description"].

(** [r] fails and [e] is one of the lines it reports. *)
Definition fails_with_line {A : Type} (r : validation A) (e : ErrorDetails)
  : Prop :=
  exists es, r = inl es /\ e ∈ es.

(** No validator fails without saying why. *)
Definition reports_a_line {A : Type} (r : validation A) : Prop :=
  forall es, r = inl es -> es <> [].

(** * Properties *)


(** ** Accumulating validators *)


Lemma vap_fails_r {A B : Type} (f : validation (A -> B)) (x : validation A) e :
  fails_with_line x e -> fails_with_line (f <*> x) e.
Proof.
  intros (es & -> & Hin). destruct f as [e1|g]; simpl.
  - exists (e1 ++ es). split; [reflexivity|]. apply elem_of_app. by right.
  - by exists es.
Qed.

Lemma vap_fails_l {A B : Type} (f : validation (A -> B)) (x : validation A) e :
  fails_with_line f e -> fails_with_line (f <*> x) e.
Proof.
  intros (es & -> & Hin). destruct x as [e2|a]; simpl.
  - exists (es ++ e2). split; [reflexivity|]. apply elem_of_app. by left.
  - by exists es.
Qed.

Lemma at_loc_fails {A : Type} k (r : validation A) e :
  fails_with_line r e ->
  fails_with_line (at_loc k r) (mkErrorDetails (k :: err_loc e) (err_type e)).
Proof.
  intros (es & -> & Hin). exists (with_loc k es). split; [reflexivity|].
  unfold with_loc. apply list_elem_of_In, in_map_iff.
  exists e. split; [reflexivity|]. by apply list_elem_of_In.
Qed.

Lemma required_missing {A : Type} (validator : pyobj -> validation A) d field :
  d !! field = None ->
  fails_with_line (required validator d field) (mkErrorDetails [field] missing).
Proof.
  intros H. unfold required. rewrite H.
  eexists. split; [reflexivity|]. apply list_elem_of_singleton. reflexivity.
Qed.

Lemma required_ext {A : Type} (validator : pyobj -> validation A) d d' field :
  d !! field = d' !! field ->
  required validator d field = required validator d' field.
Proof. unfold required. by intros ->. Qed.

(** ** One province payload *)

Ltac push_failure H :=
  repeat first [ apply vap_fails_r; exact H | apply vap_fails_l ].

(** A payload without one of the declared fields is rejected, and the error
    names the field as missing. *)
Lemma Province_validate_missing lenient d field :
  field ∈ Province.model_fields ->
  d !! field = None ->
  fails_with_line (Province.validate lenient (PyDict d)) (mkErrorDetails [field] missing).
Proof.
  intros Hf Hd. unfold Province.model_fields in Hf.
  repeat (apply elem_of_cons in Hf as [-> | Hf]);
    [| | | | | | | | by apply elem_of_nil in Hf];
    unfold Province.validate.
  - pose proof (required_missing (validate_int lenient) d "id" Hd) as H. push_failure H.
  - pose proof (required_missing validate_str d "name" Hd) as H. push_failure H.
  - pose proof (required_missing validate_str d "type" Hd) as H. push_failure H.
  - pose proof (required_missing validate_str d "owner" Hd) as H. push_failure H.
  - pose proof (required_missing (validate_int lenient) d "development" Hd) as H.
    push_failure H.
  - pose proof (required_missing validate_str d "trade_goods" Hd) as H.
    push_failure H.
  - pose proof (required_missing validate_str d "terrain" Hd) as H.
    push_failure H.
  - pose proof (required_missing validate_str d "description" Hd) as H.
    push_failure H.
Qed.

(** Validation reads the payload at the eight declared fields only. *)
Lemma Province_validate_ext lenient d d' :
  (forall field, field ∈ Province.model_fields -> d !! field = d' !! field) ->
  Province.validate lenient (PyDict d) = Province.validate lenient (PyDict d').
Proof.
  intros H. unfold Province.validate.
  rewrite (required_ext (validate_int lenient) d d' "id"),
    (required_ext validate_str d d' "name"),
    (required_ext validate_str d d' "type"),
    (required_ext validate_str d d' "owner"),
    (required_ext (validate_int lenient) d d' "development"),
    (required_ext validate_str d d' "trade_goods"),
    (required_ext validate_str d d' "terrain"),
    (required_ext validate_str d d' "description");
    first [ reflexivity
          | apply H; unfold Province.model_fields; set_solver ].
Qed.


Lemma required_present {A : Type} (validator : pyobj -> validation A)
  d field v a :
  d !! field = Some v -> validator v = inr a ->
  required validator d field = inr a.
Proof. intros Hd Hv. unfold required. by rewrite Hd, Hv. Qed.

Lemma required_inr {A : Type} (validator : pyobj -> validation A) d field a :
  required validator d field = inr a ->
  exists v, d !! field = Some v /\ validator v = inr a.
Proof.
  unfold required. destruct (d !! field) as [v|]; [|discriminate].
  destruct (validator v) as [es|a'] eqn:Hv; simpl; [discriminate|].
  intros [= <-]. eauto.
Qed.

(** ** The mapping of provinces *)

Lemma list_bind_nil {A B : Type} (f : A -> list B) (l : list A) :
  l ≫= f = [] <-> forall x, x ∈ l -> f x = [].
Proof.
  induction l as [|a l IH]; simpl.
  - split; [intros _ x Hx; by apply elem_of_nil in Hx | done].
  - split.
    + intros [Ha Hl]%app_eq_nil x [->|Hx]%elem_of_cons; [done|].
      by apply IH.
    + intros H. rewrite (H a) by left. simpl.
      apply IH. intros x Hx. apply H. by right.
Qed.

(** Every payload valid: the mapping is valid, key by key. *)
Lemma validate_dict_all_valid lenient (d : gmap string pyobj) :
  (forall k v, d !! k = Some v -> exists p, Province.validate lenient v = inr p) ->
  validate_dict_str_Province lenient (PyDict d)
  = inr (omap entry_value (Province.validate lenient <$> d)).
Proof.
  intros Hall. unfold validate_dict_str_Province.
  assert (map_to_list (Province.validate lenient <$> d) ≫= entry_errors = []) as ->;
    [|reflexivity].
  apply list_bind_nil. intros [k r] Hkr.
  apply elem_of_map_to_list in Hkr. rewrite lookup_fmap in Hkr.
  destruct (d !! k) as [v|] eqn:Hk; simpl in Hkr; [|discriminate].
  injection Hkr as <-. destruct (Hall k v Hk) as [p Hp].
  unfold entry_errors. simpl. by rewrite Hp.
Qed.

(** One payload invalid: the mapping is invalid, and the lines of that
    payload are reported under its key. *)
Lemma validate_dict_entry_fails lenient (d : gmap string pyobj) k v e :
  d !! k = Some v ->
  fails_with_line (Province.validate lenient v) e ->
  fails_with_line (validate_dict_str_Province lenient (PyDict d))
    (mkErrorDetails (k :: err_loc e) (err_type e)).
Proof.
  intros Hk (es & Hv & Hin). unfold validate_dict_str_Province.
  assert (mkErrorDetails (k :: err_loc e) (err_type e)
          ∈ map_to_list (Province.validate lenient <$> d) ≫= entry_errors) as Hline.
  { apply list_elem_of_bind. exists (k, inl es). split.
    - unfold entry_errors, with_loc. simpl.
      apply list_elem_of_In, in_map_iff. exists e.
      split; [reflexivity | by apply list_elem_of_In].
    - apply elem_of_map_to_list. by rewrite lookup_fmap, Hk, <- Hv. }
  destruct (map_to_list (Province.validate lenient <$> d) ≫= entry_errors) as [|e0 es0].
  - by apply elem_of_nil in Hline.
  - by exists (e0 :: es0).
Qed.


(** ** The container *)

Lemma ProvincesData_validate_entry_fails lenient (d ps : gmap string pyobj) k v e :
  d !! "provinces" = Some (PyDict ps) ->
  ps !! k = Some v ->
  fails_with_line (Province.validate lenient v) e ->
  fails_with_line (ProvincesData.validate lenient (PyDict d))
    (mkErrorDetails ("provinces" :: k :: err_loc e) (err_type e)).
Proof.
  intros Hd Hk He. unfold ProvincesData.validate. rewrite Hd.
  apply vap_fails_r.
  apply (at_loc_fails "provinces" _
           (mkErrorDetails (k :: err_loc e) (err_type e))).
  by apply validate_dict_entry_fails with v.
Qed.

Lemma model_validate_fails lenient (v : pyobj) e :
  fails_with_line (ProvincesData.validate lenient v) e ->
  exists es, ProvincesData.model_validate lenient v
             = inl (ValidationError "ProvincesData" es) /\ e ∈ es.
Proof.
  intros (es & H & Hin). exists es. unfold ProvincesData.model_validate.
  by rewrite H.
Qed.


(** ** Building a response *)

Lemma any_str_dict P (d : gmap string pyobj) :
  any_str P (PyDict d) = true
  <-> exists k v, d !! k = Some v /\ (P k = true \/ any_str P v = true).
Proof.
  simpl. rewrite map_fold_foldr.
  transitivity (exists kv, kv ∈ map_to_list d
                           /\ (P kv.1 = true \/ any_str P kv.2 = true)).
  - induction (map_to_list d) as [|[k v] l IH]; simpl.
    + split; [discriminate | by intros (kv & ?%elem_of_nil & _)].
    + rewrite !orb_true_iff, IH. split.
      * intros [[H|H]|(kv & Hin & H)].
        -- exists (k, v). split; [by left | by left].
        -- exists (k, v). split; [by left | by right].
        -- exists kv. split; [by right | done].
      * intros (kv & [->|Hin]%elem_of_cons & H).
        -- left. by destruct H; [left | right].
        -- right. by exists kv.
  - split.
    + intros ([k v] & Hin%elem_of_map_to_list & H). by exists k, v.
    + intros (k & v & Hk & H). exists (k, v).
      split; [by apply elem_of_map_to_list | done].
Qed.

Lemma any_float_dict P (d : gmap string pyobj) :
  any_float P (PyDict d) = true
  <-> exists k v, d !! k = Some v /\ any_float P v = true.
Proof.
  simpl. rewrite map_fold_foldr.
  transitivity (exists kv, kv ∈ map_to_list d /\ any_float P kv.2 = true).
  - induction (map_to_list d) as [|[k v] l IH]; simpl.
    + split; [discriminate | by intros (kv & ?%elem_of_nil & _)].
    + rewrite orb_true_iff, IH. split.
      * intros [H|(kv & Hin & H)].
        -- exists (k, v). split; [by left | done].
        -- exists kv. split; [by right | done].
      * intros (kv & [->|Hin]%elem_of_cons & H); [by left|].
        right. by exists kv.
  - split.
    + intros ([k v] & Hin%elem_of_map_to_list & H). by exists k, v.
    + intros (k & v & Hk & H). exists (k, v).
      split; [by apply elem_of_map_to_list | done].
Qed.

(** A dumped record holds no float. *)
Lemma Province_model_dump_no_float P (p : Province.t) :
  any_float P (Province.model_dump p) = false.
Proof. destruct p. vm_compute. reflexivity. Qed.

Lemma ProvincesData_model_dump_no_float P (pd : ProvincesData.t) :
  any_float P (ProvincesData.model_dump pd) = false.
Proof.
  apply not_true_is_false. unfold ProvincesData.model_dump.
  intros (k & v & Hk & Hv)%any_float_dict.
  apply lookup_insert_Some in Hk as [[_ <-]|[_ Hk]];
    [|by rewrite lookup_empty in Hk].
  apply any_float_dict in Hv as (k' & v' & Hk' & Hv').
  rewrite lookup_fmap in Hk'.
  destruct (ProvincesData.provinces pd !! k') as [p|]; [|discriminate].
  injection Hk' as <-. by rewrite Province_model_dump_no_float in Hv'.
Qed.

(** Building the response of one record fails on a lone surrogate and on
    nothing else. *)
Lemma JSONResponse_init_Province (p : Province.t) :
  main.JSONResponse_init (Province.model_dump p)
  = if any_str has_lone_surrogate (Province.model_dump p)
    then inl UnicodeEncodeError
    else inr (main.mkJSONResponse (Province.model_dump p)).
Proof.
  unfold main.JSONResponse_init.
  by rewrite Province_model_dump_no_float.
Qed.

Lemma JSONResponse_init_ProvincesData (pd : ProvincesData.t) :
  main.JSONResponse_init (ProvincesData.model_dump pd)
  = if any_str has_lone_surrogate (ProvincesData.model_dump pd)
    then inl UnicodeEncodeError
    else inr (main.mkJSONResponse (ProvincesData.model_dump pd)).
Proof.
  unfold main.JSONResponse_init.
  by rewrite ProvincesData_model_dump_no_float.
Qed.

Lemma JSONResponse_init_inr content resp :
  main.JSONResponse_init content = inr resp ->
  resp = main.mkJSONResponse content.
Proof.
  unfold main.JSONResponse_init.
  destruct (any_float _ _); [discriminate|].
  destruct (any_str _ _); [discriminate|]. by intros [= <-].
Qed.

(** When the whole dataset can be encoded, so can each of its records. *)
Lemma ProvincesData_encodable_records (pd : ProvincesData.t) k p :
  any_str has_lone_surrogate (ProvincesData.model_dump pd) = false ->
  ProvincesData.provinces pd !! k = Some p ->
  any_str has_lone_surrogate (Province.model_dump p) = false.
Proof.
  intros Hpd Hk. apply not_true_is_false. intros Hp.
  apply not_true_iff_false in Hpd. apply Hpd.
  unfold ProvincesData.model_dump. apply any_str_dict.
  exists "provinces", (PyDict (Province.model_dump <$> ProvincesData.provinces pd)).
  split; [apply lookup_insert_eq|]. right.
  apply any_str_dict. exists k, (Province.model_dump p).
  split; [by rewrite lookup_fmap, Hk | by right].
Qed.

(** ** The loader *)

(** C1. When no file exists at the configured path, the loader returns a
    [ProvincesData] whose [provinces] mapping is empty; it does not raise,
    whatever the decoder would do. *)
Theorem load_provinces_missing_file
  (lenient : string -> error_type + Z)
  (json_load : string -> result pyobj) (fs : filesystem) :
  fs !! "provinces.json" = None ->
  helpers.load_provinces lenient json_load fs = inr (ProvincesData.mk ∅)
  /\ main.load_provinces lenient json_load fs = inr (ProvincesData.mk ∅).
Proof.
  intros H.
  unfold helpers.load_provinces, main.load_provinces, Path_exists,
    helpers.PROVINCES_FILE, main.PROVINCES_FILE.
  rewrite H. simpl. split; reflexivity.
Qed.

Lemma load_provinces_missing_file_witness :
  (∅ : filesystem) !! "provinces.json" = None
  /\ helpers.load_provinces lenient_none (decoder_of_table []) ∅ = inr (ProvincesData.mk ∅)
  /\ main.load_provinces lenient_none (decoder_of_table []) ∅ = inr (ProvincesData.mk ∅).
Proof.
  split; [reflexivity|].
  apply (load_provinces_missing_file lenient_none (decoder_of_table []) ∅).
  reflexivity.
Defined.

(** The loader on a regular file: decode, then validate. *)
Lemma load_provinces_regular_file lenient json_load (fs : filesystem) content :
  fs !! "provinces.json" = Some (RegularFile content) ->
  helpers.load_provinces lenient json_load fs
  = (raw_data <- json_load content ;;
     ProvincesData.model_validate lenient raw_data).
Proof.
  intros H.
  unfold helpers.load_provinces, Path_exists, Path_open, helpers.PROVINCES_FILE.
  rewrite H. reflexivity.
Qed.

(** C6. On an existing file the loader raises what the decoder raises, and
    raises the validation error when the decoded document violates the
    schema; it returns a dataset only when both steps succeeded. *)
Theorem load_provinces_propagates_errors
  (lenient : string -> error_type + Z)
  (json_load : string -> result pyobj) (fs : filesystem) content :
  fs !! "provinces.json" = Some (RegularFile content) ->
  (forall e, json_load content = inl e ->
             helpers.load_provinces lenient json_load fs = inl e)
  /\ (forall raw_data es,
        json_load content = inr raw_data ->
        ProvincesData.validate lenient raw_data = inl es ->
        helpers.load_provinces lenient json_load fs
        = inl (ValidationError "ProvincesData" es))
  /\ (forall pd,
        helpers.load_provinces lenient json_load fs = inr pd ->
        exists raw_data,
          json_load content = inr raw_data
          /\ ProvincesData.validate lenient raw_data = inr pd).
Proof.
  intros H. rewrite (load_provinces_regular_file _ _ _ _ H).
  repeat split.
  - intros e He. by rewrite He.
  - intros raw es Hraw Hes. rewrite Hraw. simpl.
    unfold ProvincesData.model_validate. by rewrite Hes.
  - intros pd. destruct (json_load content) as [e|raw]; simpl; [discriminate|].
    unfold ProvincesData.model_validate.
    destruct (ProvincesData.validate lenient raw) as [es|pd'] eqn:Hv; [discriminate|].
    intros [= <-]. eauto.
Qed.

(** The two loaders are the same function of the decoder and the files. *)
Lemma load_provinces_helpers_main_eq lenient json_load (fs : filesystem) :
  helpers.load_provinces lenient json_load fs = main.load_provinces lenient json_load fs.
Proof. reflexivity. Qed.

(** C8. The loader of [helpers.py] and the loader of [main.py] agree on
    every file system and for every decoder: same dataset or same
    exception. *)
Theorem load_provinces_helpers_main
  (lenient : string -> error_type + Z)
  (json_load : string -> result pyobj) (fs : filesystem) :
  helpers.load_provinces lenient json_load fs = main.load_provinces lenient json_load fs.
Proof.
  unfold helpers.load_provinces, main.load_provinces.
  unfold helpers.PROVINCES_FILE, main.PROVINCES_FILE.
  destruct (Path_exists fs "provinces.json"); simpl; [|reflexivity].
  destruct (Path_open fs "provinces.json") as [e|f]; simpl; [reflexivity|].
  destruct (json_load f); reflexivity.
Qed.

Lemma load_provinces_propagates_errors_witness :
  helpers.load_provinces lenient_none sample_decoder (fs_with_provinces "{")
  = inl (JSONDecodeError "Expecting value")
  /\ (exists es,
        ProvincesData.validate lenient_none (document_of "SCO" ∅) = inl es
        /\ helpers.load_provinces lenient_none sample_decoder
             (fs_with_provinces text_empty_record)
           = inl (ValidationError "ProvincesData" es)).
Proof.
  split.
  - apply (proj1 (load_provinces_propagates_errors lenient_none
                    sample_decoder
                    (fs_with_provinces "{") "{" eq_refl)).
    reflexivity.
  - destruct (ProvincesData.validate lenient_none (document_of "SCO" ∅)) as [es|pd] eqn:Hv;
      [|vm_compute in Hv; discriminate].
    exists es. split; [reflexivity|].
    apply (proj1 (proj2 (load_provinces_propagates_errors lenient_none
                    sample_decoder
                           (fs_with_provinces text_empty_record)
                           text_empty_record eq_refl))
             (document_of "SCO" ∅)).
    + reflexivity.
    + exact Hv.
Defined.

(** ** Validation of documents *)

(** C2. A document whose [provinces] mapping holds a record without one of
    the required fields is rejected as a whole: validation raises, no
    dataset comes back, and the error reports that field as missing under
    the key of the record (nothing is substituted for it). *)
Theorem model_validate_missing_field
  (lenient : string -> error_type + Z)
  (d ps r : gmap string pyobj) (k field : string) :
  d !! "provinces" = Some (PyDict ps) ->
  ps !! k = Some (PyDict r) ->
  field ∈ Province.model_fields ->
  r !! field = None ->
  exists es,
    ProvincesData.model_validate lenient (PyDict d)
    = inl (ValidationError "ProvincesData" es)
    /\ mkErrorDetails ["provinces"; k; field] missing ∈ es.
Proof.
  intros Hd Hk Hf Hr. apply model_validate_fails.
  apply (ProvincesData_validate_entry_fails lenient d ps k (PyDict r)
           (mkErrorDetails [field] missing) Hd Hk).
  by apply Province_validate_missing.
Qed.

Lemma model_validate_missing_field_witness :
  exists es,
    ProvincesData.model_validate lenient_none
      (document_of "SCO" (delete "development" scotland))
    = inl (ValidationError "ProvincesData" es)
    /\ mkErrorDetails ["provinces"; "SCO"; "development"] missing ∈ es.
Proof.
  apply (model_validate_missing_field lenient_none
           (root_of (provinces_of "SCO" (delete "development" scotland)))
           (provinces_of "SCO" (delete "development" scotland))
           (delete "development" scotland) "SCO" "development").
  - vm_compute. reflexivity.
  - vm_compute. reflexivity.
  - unfold Province.model_fields. repeat constructor.
  - reflexivity.
Defined.

(** ** Lookup by key *)

(** C3, as stated, fails: the key [SCO] is in the loaded mapping, yet the
    lookup neither returns its record nor reports it missing; the name of
    the record is a lone surrogate, and building the response raises. *)
Lemma lookup_of_present_key_raises :
  let fs := fs_with_provinces text_unnamed in
  (exists pd,
     main.load_provinces lenient_none sample_decoder fs = inr pd
     /\ "SCO" ∈ dom (ProvincesData.provinces pd))
  /\ main.get_province lenient_none sample_decoder fs "SCO"
     = inl UnicodeEncodeError.
Proof.
  simpl. split.
  - exists (ProvincesData.mk
              {["SCO" := Province.mk 1 lone_surrogate "land" "SCO" 3 "wool"
                           "hills" "A northern province."]}).
    split; [vm_compute; reflexivity|]. simpl.
    rewrite dom_singleton_L. by apply elem_of_singleton.
  - vm_compute. reflexivity.
Qed.

(** C3, amended. On a loaded dataset, looking up [k] answers with the
    province stored under [k] exactly when [k] is a key of the mapping and
    the record stored there holds no lone surrogate; it raises
    [UnicodeEncodeError] when the record does; it raises the 404 exception
    exactly when [k] is not a key.  Only keys are consulted, never the [id]
    of a record, and on an empty mapping every lookup is a 404. *)
Theorem get_province_by_key
  (lenient : string -> error_type + Z)
  (json_load : string -> result pyobj) (fs : filesystem)
  (pd : ProvincesData.t) (k : string) :
  main.load_provinces lenient json_load fs = inr pd ->
  ((exists p, ProvincesData.provinces pd !! k = Some p
              /\ any_str has_lone_surrogate (Province.model_dump p) = false)
   <-> exists p, ProvincesData.provinces pd !! k = Some p
                 /\ main.get_province lenient json_load fs k
                    = inr (main.mkJSONResponse (Province.model_dump p)))
  /\ (forall p, ProvincesData.provinces pd !! k = Some p ->
        any_str has_lone_surrogate (Province.model_dump p) = true ->
        main.get_province lenient json_load fs k = inl UnicodeEncodeError)
  /\ (k ∉ dom (ProvincesData.provinces pd) <->
      main.get_province lenient json_load fs k
      = inl (HTTPException 404 "Province not found"))
  /\ (ProvincesData.provinces pd = ∅ ->
      main.get_province lenient json_load fs k
      = inl (HTTPException 404 "Province not found")).
Proof.
  intros Hload. unfold main.get_province. rewrite Hload.
  cbv beta iota delta [bind]. rewrite elem_of_dom.
  destruct (ProvincesData.provinces pd !! k) as [p|] eqn:Hk.
  - rewrite JSONResponse_init_Province.
    assert (~ ~ is_Some (Some p)) as Hsome by (intros H; apply H; by exists p).
    assert (ProvincesData.provinces pd <> ∅) as Hne.
    { intros Hempty. rewrite Hempty, lookup_empty in Hk. discriminate Hk. }
    destruct (any_str has_lone_surrogate (Province.model_dump p)) eqn:Hs.
    + split; [|split; [|split]].
      * split.
        -- intros (p' & Hp' & Hs'). injection Hp' as <-.
           rewrite Hs in Hs'. discriminate Hs'.
        -- intros (p' & _ & Hp'). discriminate Hp'.
      * reflexivity.
      * split; [intros H; by destruct Hsome | intros H; discriminate H].
      * intros Hempty. by destruct Hne.
    + split; [|split; [|split]].
      * split; intros _; exists p; (split; [reflexivity|]);
          [reflexivity | exact Hs].
      * intros p' Hp' Hs'. injection Hp' as <-.
        rewrite Hs in Hs'. discriminate Hs'.
      * split; [intros H; by destruct Hsome | intros H; discriminate H].
      * intros Hempty. by destruct Hne.
  - split; [|split; [|split]].
    + split; intros (p & Hp & _); discriminate Hp.
    + intros p Hp. discriminate Hp.
    + split; [reflexivity | intros _ [p Hp]; discriminate Hp].
    + reflexivity.
Qed.

Lemma get_province_by_key_witness :
  (exists p,
     ({["SCO" := scotland_province]} : gmap string Province.t) !! "SCO" = Some p
     /\ main.get_province lenient_none sample_decoder
          (fs_with_provinces text_scotland) "SCO"
        = inr (main.mkJSONResponse (Province.model_dump p)))
  /\ main.get_province lenient_none sample_decoder
       (fs_with_provinces text_scotland) "1"
     = inl (HTTPException 404 "Province not found").
Proof.
  assert (main.load_provinces lenient_none sample_decoder
            (fs_with_provinces text_scotland)
          = inr (ProvincesData.mk {["SCO" := scotland_province]})) as Hload
    by (vm_compute; reflexivity).
  split.
  - apply (proj1 (get_province_by_key lenient_none sample_decoder _ _ "SCO"
                    Hload)).
    exists scotland_province. split; vm_compute; reflexivity.
  - apply (proj1 (proj2 (proj2 (get_province_by_key lenient_none
                                  sample_decoder _ _ "1" Hload)))).
    simpl. rewrite dom_singleton_L. intros H%elem_of_singleton. discriminate.
Defined.

(** The example of the specification, evaluated: the key ["123"] holds a
    record whose [id] is 999; ["123"] is found, ["999"] is not. *)
Example lookup_key_differs_from_id :
  let decoder :=
    decoder_of_table
      [("doc", document_of "123" (<["id" := PyInt 999]> scotland))] in
  let fs := fs_with_provinces "doc" in
  main.get_province lenient_none decoder fs "123"
  = inr (main.mkJSONResponse (PyDict (<["id" := PyInt 999]> scotland)))
  /\ main.get_province lenient_none decoder fs "999"
     = inl (HTTPException 404 "Province not found").
Proof. split; vm_compute; reflexivity. Qed.

(** ** Strings where integers are declared *)

Lemma digits_value_total s acc :
  all_digits s = true -> exists z, digits_value acc s = Some z.
Proof.
  revert acc. induction s as [|c s IH]; intros acc Hs; simpl in *; [eauto|].
  apply andb_prop in Hs as [Hc Hs]. rewrite Hc. by apply IH.
Qed.

Lemma is_digit_run_has_digit s : is_digit_run s = true -> has_digit s = true.
Proof.
  destruct s as [|c s]; [discriminate|]. unfold is_digit_run.
  intros [[Hc _]%andb_prop _]%andb_prop. simpl. by rewrite Hc.
Qed.

(** A run of digits is read as the integer it writes. *)
Lemma str_as_int_digit_run lenient s z :
  is_digit_run s = true -> digits_value 0 s = Some z ->
  str_as_int lenient s = inr z.
Proof. intros Hs Hz. unfold str_as_int. by rewrite Hs, Hz. Qed.

(** A string without a single decimal digit is never read as an integer. *)
Lemma str_as_int_without_digit lenient s :
  has_digit s = false -> exists t, str_as_int lenient s = inl t.
Proof.
  intros Hs. unfold str_as_int.
  destruct (is_digit_run s) eqn:Hrun.
  { apply is_digit_run_has_digit in Hrun. congruence. }
  rewrite Hs. destruct (lenient s); eauto.
Qed.

Lemma required_int_string_rejected lenient d field s t :
  d !! field = Some (PyStr s) -> str_as_int lenient s = inl t ->
  fails_with_line (required (validate_int lenient) d field)
    (mkErrorDetails [field] t).
Proof.
  intros Hd Ht. unfold required, validate_int. rewrite Hd, Ht. simpl.
  eexists. split; [reflexivity | by apply list_elem_of_singleton].
Qed.

(** Two values that the integer validator treats alike can stand for each
    other in [id] or in [development]. *)
Lemma Province_validate_int_field_alike lenient
  (r : gmap string pyobj) field v v' :
  field ∈ int_fields ->
  validate_int lenient v = validate_int lenient v' ->
  Province.validate lenient (PyDict (<[field := v]> r))
  = Province.validate lenient (PyDict (<[field := v']> r)).
Proof.
  intros Hf Hv. unfold int_fields in Hf.
  repeat (apply elem_of_cons in Hf as [-> | Hf]);
    [| | by apply elem_of_nil in Hf];
    unfold Province.validate, required;
    rewrite !lookup_insert_eq, !lookup_insert_ne by done;
    rewrite Hv; reflexivity.
Qed.






(** ** Lenient integers *)

(** A non-empty run of decimal digits, as a string, is accepted where an
    integer is declared, with its decimal value. *)
Lemma str_as_int_decimal_digits lenient s :
  s <> EmptyString -> all_digits s = true -> (String.length s <= 4300)%nat ->
  exists z, digits_value 0 s = Some z /\ str_as_int lenient s = inr z.
Proof.
  intros Hne Hs Hlen. destruct (digits_value_total s 0 Hs) as [z Hz].
  exists z. split; [done|]. apply str_as_int_digit_run; [|done].
  destruct s as [|c s]; [done|]. unfold is_digit_run.
  rewrite Hs, andb_true_l. by apply Nat.leb_le.
Qed.

(** C10. There is a province payload whose [development] is the JSON string
    ["3"] that validates, alone and inside a document, and the validated
    record holds the integer 3. *)
Theorem development_digit_string_coerced (lenient : string -> error_type + Z) :
  exists (r : gmap string pyobj) (pd : ProvincesData.t) (p : Province.t),
    r !! "development" = Some (PyStr "3")
    /\ Province.model_validate lenient (PyDict r) = inr p
    /\ ProvincesData.model_validate lenient (document_of "SCO" r) = inr pd
    /\ ProvincesData.provinces pd !! "SCO" = Some p
    /\ Province.development p = 3.
Proof.
  exists (<["development" := PyStr "3"]> scotland),
    (ProvincesData.mk {["SCO" := scotland_province]}), scotland_province.
  repeat split; vm_compute; reflexivity.
Qed.

(** ** Unknown fields *)

(** C9. A payload made of acceptable values for the eight declared fields
    and of further members under other names validates to the same record
    as without them, and the record dumps to exactly the eight declared
    fields. *)
Theorem Province_validate_ignores_unknown_fields
  (lenient : string -> error_type + Z)
  (d extra : gmap string pyobj) (p : Province.t) :
  Province.validate lenient (PyDict d) = inr p ->
  (forall field, field ∈ Province.model_fields -> extra !! field = None) ->
  Province.model_validate lenient (PyDict (d ∪ extra)) = inr p
  /\ Province.model_validate lenient (PyDict (extra ∪ d)) = inr p
  /\ exists m, Province.model_dump p = PyDict m
               /\ dom m = list_to_set Province.model_fields.
Proof.
  intros Hp Hextra. unfold Province.model_validate. split; [|split].
  - rewrite (Province_validate_ext lenient (d ∪ extra) d), Hp; [reflexivity|].
    intros field Hf. apply lookup_union_l. by apply Hextra.
  - rewrite (Province_validate_ext lenient (extra ∪ d) d), Hp; [reflexivity|].
    intros field Hf. apply lookup_union_r. by apply Hextra.
  - eexists. split; [reflexivity|].
    unfold Province.model_fields. rewrite !dom_insert_L, dom_empty_L.
    set_solver.
Qed.

Lemma Province_validate_ignores_unknown_fields_witness :
  Province.model_validate lenient_none
    (PyDict (scotland ∪ {["population" := PyInt 12000; "capital" := PyNone]}))
  = inr scotland_province
  /\ Province.model_validate lenient_none
       (PyDict ({["population" := PyInt 12000; "capital" := PyNone]} ∪ scotland))
     = inr scotland_province
  /\ exists m, Province.model_dump scotland_province = PyDict m
               /\ dom m = list_to_set Province.model_fields.
Proof.
  apply (Province_validate_ignores_unknown_fields lenient_none scotland
           {["population" := PyInt 12000; "capital" := PyNone]}
           scotland_province).
  - vm_compute. reflexivity.
  - intros field Hf. unfold Province.model_fields in Hf.
    repeat (apply elem_of_cons in Hf as [-> | Hf]);
      [vm_compute; reflexivity .. | by apply elem_of_nil in Hf].
Defined.

(** ** Load, then serialize *)

Lemma member_is_int r field :
  member_is is_int r field = true -> exists z, r !! field = Some (PyInt z).
Proof.
  unfold member_is. destruct (r !! field) as [[]|]; try discriminate. eauto.
Qed.

Lemma member_is_str r field :
  member_is is_str r field = true -> exists s, r !! field = Some (PyStr s).
Proof.
  unfold member_is. destruct (r !! field) as [[]|]; try discriminate. eauto.
Qed.

Ltac lookup_field i name H :=
  destruct (decide (name = i)) as [<-|];
  [ rewrite lookup_insert_eq; symmetry; exact H
  | rewrite lookup_insert_ne by assumption ].

(** A record in the documented format validates, and dumps to itself. *)
Lemma province_format_roundtrip lenient (v : pyobj) :
  province_format v = true ->
  exists p, Province.validate lenient v = inr p
            /\ Province.model_dump p = v.
Proof.
  destruct v as [| | | | | |r]; try discriminate. simpl.
  rewrite !andb_true_iff.
  intros ((((((((Hdom & H1) & H2) & H3) & H4) & H5) & H6) & H7) & H8).
  apply bool_decide_eq_true in Hdom.
  apply member_is_int in H1 as [z1 H1]. apply member_is_str in H2 as [s2 H2].
  apply member_is_str in H3 as [s3 H3]. apply member_is_str in H4 as [s4 H4].
  apply member_is_int in H5 as [z5 H5]. apply member_is_str in H6 as [s6 H6].
  apply member_is_str in H7 as [s7 H7]. apply member_is_str in H8 as [s8 H8].
  exists (Province.mk z1 s2 s3 s4 z5 s6 s7 s8). split.
  - unfold required. rewrite H1, H2, H3, H4, H5, H6, H7, H8. reflexivity.
  - unfold Province.model_dump. simpl. f_equal. apply map_eq. intros i.
    lookup_field i "id" H1. lookup_field i "name" H2.
    lookup_field i "type" H3. lookup_field i "owner" H4.
    lookup_field i "development" H5. lookup_field i "trade_goods" H6.
    lookup_field i "terrain" H7. lookup_field i "description" H8.
    rewrite lookup_empty. symmetry. apply not_elem_of_dom. rewrite Hdom.
    intros Hin. rewrite !elem_of_union, !elem_of_singleton in Hin.
    rewrite elem_of_empty in Hin. intuition congruence.
Qed.

(** A document in the documented format validates, and dumps to itself. *)
Lemma provinces_format_roundtrip lenient (doc : pyobj) :
  provinces_format doc = true ->
  exists pd, ProvincesData.model_validate lenient doc = inr pd
             /\ ProvincesData.model_dump pd = doc.
Proof.
  destruct doc as [| | | | | |d]; try discriminate. simpl.
  rewrite andb_true_iff. intros [Hdom Hps].
  apply bool_decide_eq_true in Hdom.
  destruct (d !! "provinces") as [[| | | | | |ps]|] eqn:Hd; try discriminate.
  apply bool_decide_eq_true in Hps.
  assert (forall k v, ps !! k = Some v ->
            exists p, Province.validate lenient v = inr p
                      /\ Province.model_dump p = v) as Hall.
  { intros k v Hk. apply province_format_roundtrip.
    exact (map_Forall_lookup_1 _ ps k v Hps Hk). }
  exists (ProvincesData.mk (omap entry_value (Province.validate lenient <$> ps))).
  split.
  - unfold ProvincesData.model_validate, ProvincesData.validate.
    rewrite Hd, validate_dict_all_valid; [reflexivity|].
    intros k v Hk. destruct (Hall k v Hk) as (p & Hp & _). eauto.
  - unfold ProvincesData.model_dump. simpl. f_equal. apply map_eq. intros i.
    destruct (decide ("provinces" = i)) as [<-|Hi].
    + rewrite lookup_insert_eq, Hd. do 2 f_equal. apply map_eq. intros k.
      rewrite lookup_fmap, lookup_omap, lookup_fmap.
      destruct (ps !! k) as [v|] eqn:Hk; simpl; [|reflexivity].
      destruct (Hall k v Hk) as (p & Hp & Hdump). rewrite Hp. simpl.
      by rewrite Hdump.
    + rewrite lookup_insert_ne, lookup_empty by assumption. symmetry.
      apply not_elem_of_dom. rewrite Hdom. set_solver.
Qed.

(** C5. When the file decodes to a document in the documented format, the
    loader returns a dataset whose dump is that document: the same keys,
    each with the same eight values. *)
Theorem load_then_dump_roundtrip
  (lenient : string -> error_type + Z)
  (json_load : string -> result pyobj) (fs : filesystem)
  (content : string) (doc : pyobj) :
  fs !! "provinces.json" = Some (RegularFile content) ->
  json_load content = inr doc ->
  provinces_format doc = true ->
  exists pd, helpers.load_provinces lenient json_load fs = inr pd
             /\ main.load_provinces lenient json_load fs = inr pd
             /\ ProvincesData.model_dump pd = doc.
Proof.
  intros Hfs Hjson Hfmt.
  destruct (provinces_format_roundtrip lenient doc Hfmt) as (pd & Hv & Hdump).
  assert (helpers.load_provinces lenient json_load fs = inr pd) as Hload.
  { rewrite (load_provinces_regular_file _ _ _ _ Hfs), Hjson. exact Hv. }
  assert (main.load_provinces lenient json_load fs = inr pd) as Hmain.
  { rewrite <- Hload. symmetry. apply load_provinces_helpers_main_eq. }
  by exists pd.
Qed.

Lemma load_then_dump_roundtrip_witness :
  exists pd,
    helpers.load_provinces lenient_none sample_decoder
      (fs_with_provinces text_scotland) = inr pd
    /\ main.load_provinces lenient_none sample_decoder
         (fs_with_provinces text_scotland) = inr pd
    /\ ProvincesData.model_dump pd = document_of "SCO" scotland.
Proof.
  apply (load_then_dump_roundtrip lenient_none sample_decoder
           (fs_with_provinces text_scotland) text_scotland
           (document_of "SCO" scotland)).
  - vm_compute. reflexivity.
  - vm_compute. reflexivity.
  - vm_compute. reflexivity.
Defined.

(** ** Map layers *)

Lemma match_tokens_nil name :
  match_tokens [] name = true <-> name = EmptyString.
Proof. destruct name; simpl; split; congruence. Qed.

Lemma match_tokens_literal c toks name :
  match_tokens (Literal c :: toks) name = true
  <-> exists rest, name = String c rest /\ match_tokens toks rest = true.
Proof.
  destruct name as [|c' name]; simpl.
  - split; [discriminate | by intros (rest & ? & _)].
  - rewrite andb_true_iff, Ascii.eqb_eq. split.
    + intros [-> H]. eauto.
    + intros (rest & [= -> ->] & H). done.
Qed.

(** [*] stands for any prefix of the name. *)
Lemma match_tokens_any_run toks name :
  match_tokens (AnyRun :: toks) name = true
  <-> exists a b, name = a +:+ b /\ match_tokens toks b = true.
Proof.
  induction name as [|c name IH].
  - simpl. rewrite orb_false_r. split.
    + intros H. by exists EmptyString, EmptyString.
    + intros (a & b & Hab & H). destruct a; [|discriminate].
      change (EmptyString = b) in Hab. by subst b.
  - change (match_tokens (AnyRun :: toks) (String c name))
      with (match_tokens toks (String c name)
            || match_tokens (AnyRun :: toks) name).
    rewrite orb_true_iff, IH. split.
    + intros [H | (a & b & -> & H)].
      * by exists EmptyString, (String c name).
      * by exists (String c a), b.
    + intros (a & b & Hab & H). destruct a as [|c' a].
      * left. change (String c name = b) in Hab. by subst b.
      * right. change (String c name = String c' (a +:+ b)) in Hab.
        injection Hab as -> ->. eauto.
Qed.

(** The names selected by the pattern of the listing: something, then
    [map], then something, then [.png]. *)
Lemma fnmatch_map_png name :
  fnmatch name "*map*.png" = true
  <-> exists a b, name = a +:+ "map" +:+ b +:+ ".png".
Proof.
  unfold fnmatch.
  change (translate "*map*.png")
    with [AnyRun; Literal "m"; Literal "a"; Literal "p"; AnyRun;
          Literal "."; Literal "p"; Literal "n"; Literal "g"].
  rewrite match_tokens_any_run. split.
  - intros (a & r0 & -> & H).
    apply match_tokens_literal in H as (r1 & -> & H).
    apply match_tokens_literal in H as (r2 & -> & H).
    apply match_tokens_literal in H as (r3 & -> & H).
    apply match_tokens_any_run in H as (b & r4 & -> & H).
    apply match_tokens_literal in H as (r5 & -> & H).
    apply match_tokens_literal in H as (r6 & -> & H).
    apply match_tokens_literal in H as (r7 & -> & H).
    apply match_tokens_literal in H as (r8 & -> & H).
    apply match_tokens_nil in H as ->. by exists a, b.
  - intros (a & b & ->). exists a, ("map" +:+ b +:+ ".png").
    split; [reflexivity|].
    apply match_tokens_literal. eexists. split; [reflexivity|].
    apply match_tokens_literal. eexists. split; [reflexivity|].
    apply match_tokens_literal. eexists. split; [reflexivity|].
    apply match_tokens_any_run. exists b, ".png". split; [reflexivity|].
    reflexivity.
Qed.

(** The loop of the listing keeps, in order, the names that are not
    reserved. *)
Lemma keep_unreserved_loop (acc l : list string) :
  foldl
    (fun map_files filename =>
       if bool_decide (filename ∉ main.reserved_names)
       then map_files ++ [filename]
       else map_files)
    acc l
  = acc ++ List.filter (fun f => bool_decide (f ∉ main.reserved_names)) l.
Proof.
  revert acc. induction l as [|f l IH]; intros acc; simpl.
  - by rewrite app_nil_r.
  - rewrite IH. destruct (bool_decide (f ∉ main.reserved_names)).
    + by rewrite <- app_assoc.
    + reflexivity.
Qed.

(** The listing is the sorted list of the matching, unreserved entries. *)
Lemma get_map_layer_files_directory (fs : filesystem) entries :
  fs !! "static" = Some (Directory entries) ->
  main._get_map_layer_files fs
  = sorted
      (List.filter (fun f => bool_decide (f ∉ main.reserved_names))
         (List.filter (fun entry => fnmatch entry "*map*.png") entries)).
Proof.
  intros H. unfold main._get_map_layer_files, Path_exists, Path_glob.
  rewrite H. by rewrite keep_unreserved_loop.
Qed.

Lemma get_map_layer_files_not_directory (fs : filesystem) :
  (forall entries, fs !! "static" <> Some (Directory entries)) ->
  main._get_map_layer_files fs = [].
Proof.
  intros H. unfold main._get_map_layer_files, Path_exists, Path_glob.
  destruct (fs !! "static") as [[content|entries]|]; try reflexivity.
  by destruct (H entries).
Qed.

Lemma sorted_elem_of (l : list string) f : f ∈ sorted l <-> f ∈ l.
Proof. unfold sorted. by rewrite merge_sort_Permutation. Qed.

Lemma sorted_StronglySorted (l : list string) : StronglySorted String.le (sorted l).
Proof. apply StronglySorted_merge_sort; apply _. Qed.

Lemma sorted_NoDup (l : list string) : NoDup l -> NoDup (sorted l).
Proof. unfold sorted. by rewrite merge_sort_Permutation. Qed.

(** C7, as stated, fails: [logo.png] is an image in the directory and is
    not one of the two reserved names, yet the listing leaves it out. *)
Lemma listing_omits_image_without_map :
  let entries := ["logo.png"; "province_map.png"] in
  let fs : filesystem := <["static" := Directory entries]> ∅ in
  ("logo.png" ∈ entries)
  /\ ("logo.png" ∉ main.reserved_names)
  /\ ("logo.png" ∉ main._get_map_layer_files fs)
  /\ main._get_map_layer_files fs = ["province_map.png"].
Proof.
  simpl. split; [by left|]. split; [|split].
  - unfold main.reserved_names. intros H.
    repeat (apply elem_of_cons in H as [H | H]; [discriminate|]).
    by apply elem_of_nil in H.
  - assert (main._get_map_layer_files
              (<["static" := Directory ["logo.png"; "province_map.png"]]> ∅)
            = ["province_map.png"]) as -> by (vm_compute; reflexivity).
    intros H. apply elem_of_cons in H as [H | H]; [discriminate|].
    by apply elem_of_nil in H.
  - vm_compute. reflexivity.
Qed.

(** C7, amended. The listing is in sorted order and holds exactly the
    entries of the [static] directory whose names have the form
    [*map*.png], the two reserved names left out, none of them twice when
    the directory lists no name twice; it is empty when [static] does not
    exist. *)
Theorem get_map_layer_files_listing (fs : filesystem) :
  StronglySorted String.le (main._get_map_layer_files fs)
  /\ (forall f,
        f ∈ main._get_map_layer_files fs <->
        exists entries,
          fs !! "static" = Some (Directory entries)
          /\ f ∈ entries
          /\ (exists a b, f = a +:+ "map" +:+ b +:+ ".png")
          /\ f <> "data_map.png" /\ f <> "visual_map.png")
  /\ (forall entries,
        fs !! "static" = Some (Directory entries) ->
        NoDup entries -> NoDup (main._get_map_layer_files fs))
  /\ (fs !! "static" = None -> main._get_map_layer_files fs = []).
Proof.
  split; [|split; [|split]].
  - unfold main._get_map_layer_files. apply sorted_StronglySorted.
  - intros f. destruct (fs !! "static") as [[content|entries]|] eqn:Hs.
    + rewrite get_map_layer_files_not_directory by (rewrite Hs; congruence).
      split; [by intros H%elem_of_nil | by intros (entries & ? & _)].
    + rewrite (get_map_layer_files_directory fs entries Hs), sorted_elem_of.
      rewrite !list_elem_of_In, !filter_In, <- !list_elem_of_In.
      rewrite bool_decide_eq_true, fnmatch_map_png.
      unfold main.reserved_names.
      rewrite !not_elem_of_cons. split.
      * intros [[Hin Hpat] (Hd & Hv & _)]. exists entries. done.
      * intros (entries' & [= <-] & Hin & Hpat & Hd & Hv).
        repeat split; try done. apply not_elem_of_nil.
    + rewrite get_map_layer_files_not_directory by (rewrite Hs; congruence).
      split; [by intros H%elem_of_nil | by intros (entries & ? & _)].
  - intros entries Hs Hnd.
    rewrite (get_map_layer_files_directory fs entries Hs).
    apply sorted_NoDup. apply NoDup_ListNoDup.
    do 2 apply List.NoDup_filter. by apply NoDup_ListNoDup.
  - intros Hs. apply get_map_layer_files_not_directory.
    rewrite Hs. congruence.
Qed.



(** * Further properties *)

(** ** Dump, then validate *)

Lemma Province_validate_model_dump lenient (p : Province.t) :
  Province.validate lenient (Province.model_dump p) = inr p.
Proof. destruct p. vm_compute. reflexivity. Qed.

(** X1. What a record dumps to validates back to the record, so two records
    with the same dump are the same record. *)
Theorem Province_dump_then_validate
  (lenient : string -> error_type + Z) (p q : Province.t) :
  Province.model_validate lenient (Province.model_dump p) = inr p
  /\ (Province.model_dump p = Province.model_dump q -> p = q).
Proof.
  split.
  - unfold Province.model_validate.
    by rewrite Province_validate_model_dump.
  - intros H.
    assert (@inr (list ErrorDetails) _ p = inr q) as Hpq.
    { rewrite <- (Province_validate_model_dump lenient p), H.
      apply Province_validate_model_dump. }
    by injection Hpq.
Qed.

(** X2. What a dataset dumps to validates back to the dataset. *)
Theorem ProvincesData_dump_then_validate
  (lenient : string -> error_type + Z) (pd : ProvincesData.t) :
  ProvincesData.model_validate lenient (ProvincesData.model_dump pd) = inr pd.
Proof.
  destruct pd as [m].
  unfold ProvincesData.model_validate, ProvincesData.validate,
    ProvincesData.model_dump. simpl.
  rewrite lookup_insert_eq, validate_dict_all_valid.
  - simpl. do 2 f_equal. apply map_eq. intros k.
    rewrite lookup_omap, !lookup_fmap.
    destruct (m !! k) as [p|]; [|reflexivity].
    change (entry_value (Province.validate lenient (Province.model_dump p))
            = Some p).
    by rewrite Province_validate_model_dump.
  - intros k v. rewrite lookup_fmap.
    destruct (m !! k) as [p|]; simpl; [|discriminate].
    intros [= <-]. exists p. apply Province_validate_model_dump.
Qed.

(** ** What is served has the documented format *)

Lemma province_format_model_dump (p : Province.t) :
  province_format (Province.model_dump p) = true.
Proof. destruct p. vm_compute. reflexivity. Qed.

Lemma provinces_format_model_dump (pd : ProvincesData.t) :
  provinces_format (ProvincesData.model_dump pd) = true.
Proof.
  destruct pd as [m]. unfold provinces_format, ProvincesData.model_dump.
  simpl. rewrite lookup_insert_eq. apply andb_true_iff. split.
  - apply bool_decide_eq_true. rewrite dom_insert_L, dom_empty_L.
    apply (right_id_L ∅ (∪)).
  - apply bool_decide_eq_true. intros k v. rewrite lookup_fmap.
    destruct (m !! k) as [p|]; simpl; [|discriminate].
    intros [= <-]. apply province_format_model_dump.
Qed.

(** X3. Whatever the file held, a response of either data endpoint has the
    documented format: the whole document for the listing, one record for
    the lookup. *)
Theorem responses_have_documented_format
  (lenient : string -> error_type + Z)
  (json_load : string -> result pyobj) (fs : filesystem)
  (province_id : string) (resp : main.JSONResponse) :
  (main.get_provinces lenient json_load fs = inr resp ->
   provinces_format (main.content resp) = true)
  /\ (main.get_province lenient json_load fs province_id = inr resp ->
      province_format (main.content resp) = true).
Proof.
  unfold main.get_provinces, main.get_province.
  destruct (main.load_provinces lenient json_load fs) as [e|pd];
    cbv beta iota delta [bind].
  - split; intros H; discriminate H.
  - split.
    + intros ->%JSONResponse_init_inr. apply provinces_format_model_dump.
    + destruct (ProvincesData.provinces pd !! province_id) as [p|];
        [|intros H; discriminate H].
      intros ->%JSONResponse_init_inr. apply province_format_model_dump.
Qed.

Lemma responses_have_documented_format_witness :
  provinces_format (document_of "SCO" scotland) = true
  /\ province_format (PyDict scotland) = true.
Proof.
  split.
  - apply (proj1 (responses_have_documented_format lenient_none
                    sample_decoder (fs_with_provinces text_scotland) "SCO"
                    (main.mkJSONResponse (document_of "SCO" scotland)))).
    vm_compute. reflexivity.
  - apply (proj2 (responses_have_documented_format lenient_none
                    sample_decoder (fs_with_provinces text_scotland) "SCO"
                    (main.mkJSONResponse (PyDict scotland)))).
    vm_compute. reflexivity.
Defined.

(** ** The two data endpoints *)

(** X4. With no file, the listing answers with an empty [provinces] object
    and every lookup is a 404. *)
Theorem endpoints_missing_file
  (lenient : string -> error_type + Z)
  (json_load : string -> result pyobj) (fs : filesystem)
  (province_id : string) :
  fs !! "provinces.json" = None ->
  main.get_provinces lenient json_load fs
  = inr (main.mkJSONResponse (PyDict (<["provinces" := PyDict ∅]> ∅)))
  /\ main.get_province lenient json_load fs province_id
     = inl (HTTPException 404 "Province not found").
Proof.
  intros H.
  assert (main.load_provinces lenient json_load fs
          = inr (ProvincesData.mk ∅)) as Hload.
  { unfold main.load_provinces, Path_exists, main.PROVINCES_FILE.
    by rewrite H. }
  unfold main.get_provinces, main.get_province. rewrite Hload.
  split; vm_compute; reflexivity.
Qed.

Lemma endpoints_missing_file_witness :
  main.get_provinces lenient_none sample_decoder ∅
  = inr (main.mkJSONResponse (PyDict (<["provinces" := PyDict ∅]> ∅)))
  /\ main.get_province lenient_none sample_decoder ∅ "SCO"
     = inl (HTTPException 404 "Province not found").
Proof.
  apply (endpoints_missing_file lenient_none sample_decoder ∅ "SCO").
  reflexivity.
Defined.

(** X5. A file that is there but does not decode, or decodes to something
    the models reject, or is a directory, makes both endpoints raise that
    very error: a lookup does not answer 404 for a broken dataset. *)
Theorem endpoints_propagate_load_errors
  (lenient : string -> error_type + Z)
  (json_load : string -> result pyobj) (fs : filesystem)
  (province_id : string) (nd : node) (e : exception) :
  fs !! "provinces.json" = Some nd ->
  (exists entries, nd = Directory entries /\ e = IsADirectoryError)
  \/ (exists content, nd = RegularFile content /\ json_load content = inl e)
  \/ (exists content raw_data es,
        nd = RegularFile content
        /\ json_load content = inr raw_data
        /\ ProvincesData.validate lenient raw_data = inl es
        /\ e = ValidationError "ProvincesData" es) ->
  main.get_provinces lenient json_load fs = inl e
  /\ main.get_province lenient json_load fs province_id = inl e.
Proof.
  intros Hfs Hcase.
  assert (main.load_provinces lenient json_load fs = inl e) as Hload.
  { unfold main.load_provinces, Path_exists, Path_open, main.PROVINCES_FILE.
    rewrite Hfs. simpl.
    destruct Hcase as [(entries & -> & ->)
                      | [(content & -> & Hj)
                        | (content & raw & es & -> & Hj & Hv & ->)]]; simpl.
    - reflexivity.
    - by rewrite Hj.
    - rewrite Hj. simpl. unfold ProvincesData.model_validate. by rewrite Hv. }
  unfold main.get_provinces, main.get_province. by rewrite Hload.
Qed.

Lemma endpoints_propagate_load_errors_witness :
  (main.get_provinces lenient_none sample_decoder (fs_with_provinces "{")
   = inl (JSONDecodeError "Expecting value")
   /\ main.get_province lenient_none sample_decoder
        (fs_with_provinces "{") "SCO"
      = inl (JSONDecodeError "Expecting value"))
  /\ (main.get_provinces lenient_none sample_decoder
        (<["provinces.json" := Directory []]> ∅)
      = inl IsADirectoryError
      /\ main.get_province lenient_none sample_decoder
           (<["provinces.json" := Directory []]> ∅) "SCO"
         = inl IsADirectoryError).
Proof.
  split.
  - apply (endpoints_propagate_load_errors lenient_none sample_decoder
             (fs_with_provinces "{") "SCO" (RegularFile "{")).
    + reflexivity.
    + right. left. exists "{". split; reflexivity.
  - apply (endpoints_propagate_load_errors lenient_none sample_decoder
             (<["provinces.json" := Directory []]> ∅) "SCO" (Directory [])).
    + reflexivity.
    + left. exists []. split; reflexivity.
Defined.

(** X6. The two endpoints tell the same story: the listing has a
    [provinces] object, and a lookup answers with the member stored there
    under the key, or with a 404 when there is none. *)
Theorem endpoints_agree
  (lenient : string -> error_type + Z)
  (json_load : string -> result pyobj) (fs : filesystem)
  (resp : main.JSONResponse) :
  main.get_provinces lenient json_load fs = inr resp ->
  exists m : gmap string pyobj,
    main.content resp = PyDict (<["provinces" := PyDict m]> ∅)
    /\ forall province_id,
         main.get_province lenient json_load fs province_id
         = match m !! province_id with
           | Some record => inr (main.mkJSONResponse record)
           | None => inl (HTTPException 404 "Province not found")
           end.
Proof.
  unfold main.get_provinces, main.get_province.
  destruct (main.load_provinces lenient json_load fs) as [e|pd];
    cbv beta iota delta [bind]; [intros H; discriminate H|].
  rewrite JSONResponse_init_ProvincesData.
  destruct (any_str has_lone_surrogate (ProvincesData.model_dump pd)) eqn:Hs;
    [intros H; discriminate H|].
  intros H. injection H as <-.
  exists (Province.model_dump <$> ProvincesData.provinces pd).
  split; [reflexivity|]. intros k. rewrite lookup_fmap.
  destruct (ProvincesData.provinces pd !! k) as [p|] eqn:Hk; [|reflexivity].
  rewrite JSONResponse_init_Province.
  by rewrite (ProvincesData_encodable_records pd k p Hs Hk).
Qed.

Lemma endpoints_agree_witness :
  exists m : gmap string pyobj,
    PyDict (root_of (provinces_of "SCO" scotland))
    = PyDict (<["provinces" := PyDict m]> ∅)
    /\ forall province_id,
         main.get_province lenient_none sample_decoder
           (fs_with_provinces text_scotland) province_id
         = match m !! province_id with
           | Some record => inr (main.mkJSONResponse record)
           | None => inl (HTTPException 404 "Province not found")
           end.
Proof.
  apply (endpoints_agree lenient_none sample_decoder
           (fs_with_provinces text_scotland)
           (main.mkJSONResponse (PyDict (root_of (provinces_of "SCO" scotland))))).
  vm_compute. reflexivity.
Defined.

(** X7. A document without a [provinces] member is a valid, empty dataset,
    whatever else it holds: the listing is empty and every lookup a 404. *)
Theorem endpoints_document_without_provinces
  (lenient : string -> error_type + Z)
  (json_load : string -> result pyobj) (fs : filesystem)
  (content : string) (d : gmap string pyobj) (province_id : string) :
  fs !! "provinces.json" = Some (RegularFile content) ->
  json_load content = inr (PyDict d) ->
  d !! "provinces" = None ->
  main.load_provinces lenient json_load fs = inr (ProvincesData.mk ∅)
  /\ main.get_provinces lenient json_load fs
     = inr (main.mkJSONResponse (PyDict (<["provinces" := PyDict ∅]> ∅)))
  /\ main.get_province lenient json_load fs province_id
     = inl (HTTPException 404 "Province not found").
Proof.
  intros Hfs Hj Hd.
  assert (main.load_provinces lenient json_load fs
          = inr (ProvincesData.mk ∅)) as Hload.
  { rewrite <- load_provinces_helpers_main_eq.
    rewrite (load_provinces_regular_file _ _ _ _ Hfs), Hj. simpl.
    unfold ProvincesData.model_validate, ProvincesData.validate.
    by rewrite Hd. }
  split; [exact Hload|].
  unfold main.get_provinces, main.get_province. rewrite Hload.
  split; vm_compute; reflexivity.
Qed.

Lemma endpoints_document_without_provinces_witness :
  let decoder :=
    decoder_of_table
      [(text_version_only, PyDict (<["version" := PyInt 2]> ∅))] in
  let fs := fs_with_provinces text_version_only in
  main.load_provinces lenient_none decoder fs = inr (ProvincesData.mk ∅)
  /\ main.get_provinces lenient_none decoder fs
     = inr (main.mkJSONResponse (PyDict (<["provinces" := PyDict ∅]> ∅)))
  /\ main.get_province lenient_none decoder fs "SCO"
     = inl (HTTPException 404 "Province not found").
Proof.
  apply (endpoints_document_without_provinces lenient_none
           (decoder_of_table
              [(text_version_only, PyDict (<["version" := PyInt 2]> ∅))])
           (fs_with_provinces text_version_only) text_version_only
           (<["version" := PyInt 2]> ∅) "SCO").
  - reflexivity.
  - reflexivity.
  - reflexivity.
Defined.

(** ** All or nothing *)

Lemma vap_reports {A B : Type} (f : validation (A -> B)) (x : validation A) :
  reports_a_line f -> reports_a_line x -> reports_a_line (f <*> x).
Proof.
  intros Hf Hx es. destruct f as [e1|g], x as [e2|a]; simpl;
    intros [= <-].
  - intros [H1 _]%app_eq_nil. by apply (Hf e1).
  - by apply (Hf e1).
  - by apply (Hx e2).
Qed.

Lemma at_loc_reports {A : Type} k (r : validation A) :
  reports_a_line r -> reports_a_line (at_loc k r).
Proof.
  intros Hr es. destruct r as [es0|a]; simpl; intros [= <-].
  unfold with_loc. intros H%map_eq_nil. by apply (Hr es0).
Qed.

Lemma validate_int_reports lenient v :
  reports_a_line (validate_int lenient v).
Proof.
  intros es. unfold validate_int, fail_with.
  destruct v as [|b|z|f|s|l|d]; try (intros [= <-]; discriminate).
  - destruct (float_as_int f); intros [= <-]; discriminate.
  - destruct (str_as_int lenient s); intros [= <-]; discriminate.
Qed.

Lemma validate_str_reports v : reports_a_line (validate_str v).
Proof.
  intros es. unfold validate_str, fail_with.
  destruct v; intros [= <-]; discriminate.
Qed.

Lemma required_reports {A : Type} (validator : pyobj -> validation A) d field :
  (forall v, reports_a_line (validator v)) ->
  reports_a_line (required validator d field).
Proof.
  intros Hv. unfold required. destruct (d !! field) as [v|].
  - by apply at_loc_reports.
  - intros es [= <-]. discriminate.
Qed.

Lemma Province_validate_reports lenient v :
  reports_a_line (Province.validate lenient v).
Proof.
  destruct v as [| | | | | |d];
    try (intros es; unfold Province.validate, fail_with;
         intros [= <-]; discriminate).
  unfold Province.validate.
  repeat apply vap_reports;
    first [ apply required_reports;
            first [ exact (validate_int_reports lenient)
                  | exact validate_str_reports ]
          | intros es; discriminate ].
Qed.

(** A record that fails, fails with a line of its own. *)
Lemma Province_validate_inl_line lenient v es :
  Province.validate lenient v = inl es ->
  exists e, fails_with_line (Province.validate lenient v) e.
Proof.
  intros H. destruct es as [|e es].
  - by destruct (Province_validate_reports lenient v [] H).
  - exists e, (e :: es). split; [exact H | by left].
Qed.

(** When a document validates, each of its entries validates. *)
Lemma model_validate_inr_entries lenient (d ps : gmap string pyobj) pd :
  d !! "provinces" = Some (PyDict ps) ->
  ProvincesData.model_validate lenient (PyDict d) = inr pd ->
  forall k v, ps !! k = Some v ->
              exists p, Province.validate lenient v = inr p.
Proof.
  intros Hd Hpd k v Hk.
  destruct (Province.validate lenient v) as [es|p] eqn:Hv; [|by exists p].
  exfalso. destruct (Province_validate_inl_line lenient v es Hv) as [e He].
  destruct (model_validate_fails lenient (PyDict d) _
              (ProvincesData_validate_entry_fails lenient d ps k v e Hd Hk He))
    as (es' & Hfail & _).
  rewrite Hfail in Hpd. discriminate.
Qed.

(** X8. A document with a [provinces] object validates exactly when every one
    of its entries validates on its own. *)
Theorem model_validate_all_or_nothing
  (lenient : string -> error_type + Z)
  (d ps : gmap string pyobj) :
  d !! "provinces" = Some (PyDict ps) ->
  (exists pd, ProvincesData.model_validate lenient (PyDict d) = inr pd)
  <-> (forall k v, ps !! k = Some v ->
                   exists p, Province.validate lenient v = inr p).
Proof.
  intros Hd. split.
  - intros [pd Hpd]. by apply (model_validate_inr_entries lenient d ps pd).
  - intros Hall. eexists.
    unfold ProvincesData.model_validate, ProvincesData.validate.
    rewrite Hd, (validate_dict_all_valid lenient ps Hall). reflexivity.
Qed.

Lemma model_validate_all_or_nothing_witness :
  (exists pd,
     ProvincesData.model_validate lenient_none
       (PyDict (root_of (provinces_of "SCO" scotland)))
     = inr pd)
  <-> (forall k v, provinces_of "SCO" scotland !! k = Some v ->
                   exists p, Province.validate lenient_none v = inr p).
Proof.
  apply (model_validate_all_or_nothing lenient_none
           (root_of (provinces_of "SCO" scotland))
           (provinces_of "SCO" scotland)).
  reflexivity.
Defined.

(** X9. A validated dataset has the keys of the document, no more and no fewer,
    each with the validated form of the entry stored under it. *)
Theorem model_validate_keeps_keys
  (lenient : string -> error_type + Z)
  (d ps : gmap string pyobj) (pd : ProvincesData.t) :
  d !! "provinces" = Some (PyDict ps) ->
  ProvincesData.model_validate lenient (PyDict d) = inr pd ->
  dom (ProvincesData.provinces pd) = dom ps
  /\ (forall k v, ps !! k = Some v ->
        exists p, Province.validate lenient v = inr p
                  /\ ProvincesData.provinces pd !! k = Some p).
Proof.
  intros Hd Hpd.
  assert (forall k v, ps !! k = Some v ->
                      exists p, Province.validate lenient v = inr p)
    as Hall.
  { by apply (model_validate_inr_entries lenient d ps pd). }
  unfold ProvincesData.model_validate, ProvincesData.validate in Hpd.
  rewrite Hd, (validate_dict_all_valid lenient ps Hall) in Hpd. simpl in Hpd.
  injection Hpd as <-. simpl.
  assert (forall k v, ps !! k = Some v ->
            exists p, Province.validate lenient v = inr p
                      /\ omap entry_value
                           (Province.validate lenient <$> ps) !! k
                         = Some p) as Hvals.
  { intros k v Hk. destruct (Hall k v Hk) as [p Hp]. exists p.
    split; [exact Hp|]. rewrite lookup_omap, lookup_fmap, Hk. simpl.
    by rewrite Hp. }
  split; [|exact Hvals].
  apply set_eq. intros k. rewrite !elem_of_dom. split.
  - intros [p Hp]. rewrite lookup_omap, lookup_fmap in Hp.
    destruct (ps !! k) as [v|]; [by exists v | discriminate].
  - intros [v Hk]. destruct (Hvals k v Hk) as (p & _ & Hp). by exists p.
Qed.

Lemma model_validate_keeps_keys_witness :
  let pd := ProvincesData.mk {["SCO" := scotland_province]} in
  dom (ProvincesData.provinces pd) = dom (provinces_of "SCO" scotland)
  /\ (forall k v, provinces_of "SCO" scotland !! k = Some v ->
        exists p, Province.validate lenient_none v = inr p
                  /\ ProvincesData.provinces pd !! k = Some p).
Proof.
  intros pd.
  apply (model_validate_keeps_keys lenient_none
           (root_of (provinces_of "SCO" scotland))
           (provinces_of "SCO" scotland) pd).
  - reflexivity.
  - vm_compute. reflexivity.
Defined.

(** ** Values of the wrong kind *)

Lemma required_str_wrong_type d field v :
  d !! field = Some v -> is_str v = false ->
  fails_with_line (required validate_str d field)
    (mkErrorDetails [field] string_type).
Proof.
  intros Hd Hv. unfold required. rewrite Hd.
  destruct v; try discriminate; simpl;
    (eexists; split; [reflexivity | by apply list_elem_of_singleton]).
Qed.

Lemma required_int_wrong_type lenient d field v :
  d !! field = Some v -> is_none_list_or_dict v = true ->
  fails_with_line (required (validate_int lenient) d field)
    (mkErrorDetails [field] int_type).
Proof.
  intros Hd Hv. unfold required. rewrite Hd.
  destruct v; try discriminate; simpl;
    (eexists; split; [reflexivity | by apply list_elem_of_singleton]).
Qed.

Lemma Province_validate_str_wrong_type lenient
  (r : gmap string pyobj) field v :
  field ∈ str_fields -> r !! field = Some v -> is_str v = false ->
  fails_with_line (Province.validate lenient (PyDict r))
    (mkErrorDetails [field] string_type).
Proof.
  intros Hf Hr Hv. pose proof (required_str_wrong_type r field v Hr Hv) as H.
  unfold str_fields in Hf.
  repeat (apply elem_of_cons in Hf as [-> | Hf]);
    [| | | | | | by apply elem_of_nil in Hf];
    unfold Province.validate; push_failure H.
Qed.

Lemma Province_validate_int_wrong_type lenient
  (r : gmap string pyobj) field v :
  field ∈ int_fields -> r !! field = Some v ->
  is_none_list_or_dict v = true ->
  fails_with_line (Province.validate lenient (PyDict r))
    (mkErrorDetails [field] int_type).
Proof.
  intros Hf Hr Hv. pose proof (required_int_wrong_type lenient r field v Hr Hv) as H.
  unfold int_fields in Hf.
  repeat (apply elem_of_cons in Hf as [-> | Hf]);
    [| | by apply elem_of_nil in Hf];
    unfold Province.validate; push_failure H.
Qed.

(** X10. Nothing but a string is taken for a textual field: a number, a boolean,
    [null], a list or an object there fails the whole document, the error
    naming the field. *)
Theorem model_validate_text_field_not_a_string
  (lenient : string -> error_type + Z)
  (d ps r : gmap string pyobj) (k field : string) (v : pyobj) :
  d !! "provinces" = Some (PyDict ps) ->
  ps !! k = Some (PyDict r) ->
  field ∈ str_fields ->
  r !! field = Some v ->
  is_str v = false ->
  exists es,
    ProvincesData.model_validate lenient (PyDict d)
    = inl (ValidationError "ProvincesData" es)
    /\ mkErrorDetails ["provinces"; k; field] string_type ∈ es.
Proof.
  intros Hd Hk Hf Hr Hv. apply model_validate_fails.
  apply (ProvincesData_validate_entry_fails lenient d ps k (PyDict r)
           (mkErrorDetails [field] string_type) Hd Hk).
  by apply Province_validate_str_wrong_type with v.
Qed.

Lemma model_validate_text_field_not_a_string_witness :
  exists es,
    ProvincesData.model_validate lenient_none
      (document_of "SCO" (<["owner" := PyInt 7]> scotland))
    = inl (ValidationError "ProvincesData" es)
    /\ mkErrorDetails ["provinces"; "SCO"; "owner"] string_type ∈ es.
Proof.
  apply (model_validate_text_field_not_a_string lenient_none
           (root_of (provinces_of "SCO" (<["owner" := PyInt 7]> scotland)))
           (provinces_of "SCO" (<["owner" := PyInt 7]> scotland))
           (<["owner" := PyInt 7]> scotland) "SCO" "owner" (PyInt 7)).
  - vm_compute. reflexivity.
  - vm_compute. reflexivity.
  - unfold str_fields. repeat constructor.
  - vm_compute. reflexivity.
  - reflexivity.
Defined.

(** X11. [null], a list or an object where an integer is declared fails the
    whole document, the error naming the field. *)
Theorem model_validate_int_field_not_a_number
  (lenient : string -> error_type + Z)
  (d ps r : gmap string pyobj) (k field : string) (v : pyobj) :
  d !! "provinces" = Some (PyDict ps) ->
  ps !! k = Some (PyDict r) ->
  field ∈ int_fields ->
  r !! field = Some v ->
  is_none_list_or_dict v = true ->
  exists es,
    ProvincesData.model_validate lenient (PyDict d)
    = inl (ValidationError "ProvincesData" es)
    /\ mkErrorDetails ["provinces"; k; field] int_type ∈ es.
Proof.
  intros Hd Hk Hf Hr Hv. apply model_validate_fails.
  apply (ProvincesData_validate_entry_fails lenient d ps k (PyDict r)
           (mkErrorDetails [field] int_type) Hd Hk).
  by apply Province_validate_int_wrong_type with v.
Qed.

Lemma model_validate_int_field_not_a_number_witness :
  exists es,
    ProvincesData.model_validate lenient_none
      (document_of "SCO" (<["development" := PyNone]> scotland))
    = inl (ValidationError "ProvincesData" es)
    /\ mkErrorDetails ["provinces"; "SCO"; "development"] int_type ∈ es.
Proof.
  apply (model_validate_int_field_not_a_number lenient_none
           (root_of (provinces_of "SCO" (<["development" := PyNone]> scotland)))
           (provinces_of "SCO" (<["development" := PyNone]> scotland))
           (<["development" := PyNone]> scotland) "SCO" "development" PyNone).
  - vm_compute. reflexivity.
  - vm_compute. reflexivity.
  - unfold int_fields. repeat constructor.
  - vm_compute. reflexivity.
  - reflexivity.
Defined.

(** X12. Only objects are candidates: a document that is not an object, a
    [provinces] member that is not an object, and an entry that is not an
    object are each rejected, with a line at the place of the offender. *)
Theorem model_validate_rejects_non_objects
  (lenient : string -> error_type + Z) :
  (forall doc, is_dict doc = false ->
     ProvincesData.model_validate lenient doc
     = inl (ValidationError "ProvincesData" [mkErrorDetails [] model_type]))
  /\ (forall (d : gmap string pyobj) x,
        d !! "provinces" = Some x -> is_dict x = false ->
        ProvincesData.model_validate lenient (PyDict d)
        = inl (ValidationError "ProvincesData"
                 [mkErrorDetails ["provinces"] dict_type]))
  /\ (forall (d ps : gmap string pyobj) k v,
        d !! "provinces" = Some (PyDict ps) ->
        ps !! k = Some v -> is_dict v = false ->
        exists es,
          ProvincesData.model_validate lenient (PyDict d)
          = inl (ValidationError "ProvincesData" es)
          /\ mkErrorDetails ["provinces"; k] model_type ∈ es).
Proof.
  split; [|split].
  - intros doc H. destruct doc; try discriminate; reflexivity.
  - intros d x Hd H. unfold ProvincesData.model_validate, ProvincesData.validate.
    rewrite Hd. destruct x; try discriminate; reflexivity.
  - intros d ps k v Hd Hk H. apply model_validate_fails.
    apply (ProvincesData_validate_entry_fails lenient d ps k v
             (mkErrorDetails [] model_type) Hd Hk).
    destruct v; try discriminate;
      (eexists; split; [reflexivity | by apply list_elem_of_singleton]).
Qed.

Lemma model_validate_rejects_non_objects_witness :
  ProvincesData.model_validate lenient_none (PyList [])
  = inl (ValidationError "ProvincesData" [mkErrorDetails [] model_type])
  /\ ProvincesData.model_validate lenient_none
       (PyDict (<["provinces" := PyList []]> ∅))
     = inl (ValidationError "ProvincesData"
              [mkErrorDetails ["provinces"] dict_type])
  /\ exists es,
       ProvincesData.model_validate lenient_none
         (PyDict (root_of (<["SCO" := PyStr "Scotland"]> ∅)))
       = inl (ValidationError "ProvincesData" es)
       /\ mkErrorDetails ["provinces"; "SCO"] model_type ∈ es.
Proof.
  destruct (model_validate_rejects_non_objects lenient_none)
    as (H1 & H2 & H3).
  split; [|split].
  - by apply H1.
  - by apply (H2 (<["provinces" := PyList []]> ∅) (PyList [])).
  - by apply (H3 (root_of (<["SCO" := PyStr "Scotland"]> ∅))
                (<["SCO" := PyStr "Scotland"]> ∅) "SCO" (PyStr "Scotland")).
Defined.


(** ** Integers written as strings *)

(** X13. Text without any digit in an integer field ([id] or [development])
    fails the whole document, the error naming the field. *)
Theorem model_validate_int_field_without_digit
  (lenient : string -> error_type + Z)
  (d ps r : gmap string pyobj) (k field s : string) :
  d !! "provinces" = Some (PyDict ps) ->
  ps !! k = Some (PyDict r) ->
  field ∈ int_fields ->
  r !! field = Some (PyStr s) ->
  has_digit s = false ->
  exists es t,
    ProvincesData.model_validate lenient (PyDict d)
    = inl (ValidationError "ProvincesData" es)
    /\ mkErrorDetails ["provinces"; k; field] t ∈ es.
Proof.
  intros Hd Hk Hf Hr Hs.
  destruct (str_as_int_without_digit lenient s Hs) as [t Ht].
  pose proof (required_int_string_rejected lenient r field s t Hr Ht) as H.
  assert (fails_with_line (Province.validate lenient (PyDict r))
            (mkErrorDetails [field] t)) as Hfail.
  { unfold int_fields in Hf.
    repeat (apply elem_of_cons in Hf as [-> | Hf]);
      [| | by apply elem_of_nil in Hf];
      unfold Province.validate; push_failure H. }
  destruct (model_validate_fails lenient (PyDict d) _
              (ProvincesData_validate_entry_fails lenient d ps k (PyDict r)
                 (mkErrorDetails [field] t) Hd Hk Hfail)) as (es & Hes & Hin).
  by exists es, t.
Qed.

Lemma model_validate_int_field_without_digit_witness :
  exists es t,
    ProvincesData.model_validate lenient_none
      (document_of "SCO" (<["development" := PyStr "high"]> scotland))
    = inl (ValidationError "ProvincesData" es)
    /\ mkErrorDetails ["provinces"; "SCO"; "development"] t ∈ es.
Proof.
  apply (model_validate_int_field_without_digit lenient_none
           (root_of (provinces_of "SCO"
                       (<["development" := PyStr "high"]> scotland)))
           (provinces_of "SCO" (<["development" := PyStr "high"]> scotland))
           (<["development" := PyStr "high"]> scotland)
           "SCO" "development" "high").
  - vm_compute. reflexivity.
  - vm_compute. reflexivity.
  - unfold int_fields. repeat constructor.
  - vm_compute. reflexivity.
  - reflexivity.
Defined.

(** X14. Writing the integer of [id] or [development] as a string of decimal
    digits changes nothing: the payload validates, or fails, exactly as with
    the integer itself. *)
Theorem digit_string_same_as_integer
  (lenient : string -> error_type + Z)
  (r : gmap string pyobj) (field s : string) (z : Z) :
  field ∈ int_fields ->
  s <> EmptyString ->
  all_digits s = true ->
  (String.length s <= 4300)%nat ->
  digits_value 0 s = Some z ->
  Province.validate lenient (PyDict (<[field := PyStr s]> r))
  = Province.validate lenient (PyDict (<[field := PyInt z]> r)).
Proof.
  intros Hf Hne Hs Hlen Hz.
  destruct (str_as_int_decimal_digits lenient s Hne Hs Hlen)
    as (z' & Hz' & Hstr).
  assert (z' = z) as -> by congruence.
  apply Province_validate_int_field_alike; [exact Hf|].
  unfold validate_int. by rewrite Hstr.
Qed.

Lemma digit_string_same_as_integer_witness :
  Province.validate lenient_none (PyDict (<["id" := PyStr "0042"]> scotland))
  = Province.validate lenient_none (PyDict (<["id" := PyInt 42]> scotland)).
Proof.
  apply (digit_string_same_as_integer lenient_none scotland "id" "0042" 42).
  - unfold int_fields. repeat constructor.
  - discriminate.
  - reflexivity.
  - vm_compute. lia.
  - reflexivity.
Defined.


(** ** The map-layer endpoint *)

Lemma List_filter_Permutation {A : Type} (f : A -> bool) (l l' : list A) :
  l ≡ₚ l' -> List.filter f l ≡ₚ List.filter f l'.
Proof.
  induction 1 as [|x l l' _ IH|x y l|l l' l'' _ IH1 _ IH2]; simpl.
  - reflexivity.
  - destruct (f x); [by constructor | done].
  - destruct (f x), (f y); try reflexivity. constructor.
  - by etrans.
Qed.

(** X15. The order in which the directory lists its entries does not show
    in the listing, nor in the response of the endpoint. *)
Theorem map_layers_ignore_directory_order
  (fs fs' : filesystem) (entries entries' : list string) :
  fs !! "static" = Some (Directory entries) ->
  fs' !! "static" = Some (Directory entries') ->
  entries ≡ₚ entries' ->
  main._get_map_layer_files fs = main._get_map_layer_files fs'
  /\ main.get_map_layers fs = main.get_map_layers fs'.
Proof.
  intros Hfs Hfs' Hperm.
  assert (main._get_map_layer_files fs = main._get_map_layer_files fs') as H.
  { rewrite (get_map_layer_files_directory fs entries Hfs),
      (get_map_layer_files_directory fs' entries' Hfs').
    apply (StronglySorted_unique String.le);
      [apply sorted_StronglySorted | apply sorted_StronglySorted |].
    unfold sorted. rewrite !merge_sort_Permutation.
    by do 2 apply List_filter_Permutation. }
  split; [exact H|]. unfold main.get_map_layers. by rewrite H.
Qed.

Lemma map_layers_ignore_directory_order_witness :
  let fs : filesystem :=
    <["static" := Directory ["b_map.png"; "a_map.png"; "data_map.png"]]> ∅ in
  let fs' : filesystem :=
    <["static" := Directory ["data_map.png"; "a_map.png"; "b_map.png"]]> ∅ in
  main._get_map_layer_files fs = main._get_map_layer_files fs'
  /\ main.get_map_layers fs = main.get_map_layers fs'.
Proof.
  intros fs fs'.
  apply (map_layers_ignore_directory_order fs fs'
           ["b_map.png"; "a_map.png"; "data_map.png"]
           ["data_map.png"; "a_map.png"; "b_map.png"]).
  - reflexivity.
  - reflexivity.
  - etrans; [apply Permutation_swap|].
    etrans; [apply Permutation_skip, Permutation_swap|].
    etrans; [apply Permutation_swap|].
    reflexivity.
Defined.

(** X16. Without a [static] directory (nothing there, or a plain file of
    that name) the endpoint still answers, with an empty list of layers. *)
Theorem map_layers_without_directory (fs : filesystem) :
  (forall entries, fs !! "static" <> Some (Directory entries)) ->
  main.get_map_layers fs
  = inr (main.mkJSONResponse (PyDict (<["layers" := PyList []]> ∅))).
Proof.
  intros H. unfold main.get_map_layers.
  rewrite (get_map_layer_files_not_directory fs H).
  vm_compute. reflexivity.
Qed.

Lemma map_layers_without_directory_witness :
  main.get_map_layers (<["static" := RegularFile "not a directory"]> ∅)
  = inr (main.mkJSONResponse (PyDict (<["layers" := PyList []]> ∅))).
Proof.
  apply (map_layers_without_directory
           (<["static" := RegularFile "not a directory"]> ∅)).
  intros entries. vm_compute. discriminate.
Defined.

(** X17. Each endpoint reads its own path and nothing else: the data
    endpoints depend on [provinces.json] alone, the map layers on [static]
    alone. *)
Theorem endpoints_read_their_own_path
  (lenient : string -> error_type + Z)
  (json_load : string -> result pyobj) (fs fs' : filesystem) :
  (fs !! "provinces.json" = fs' !! "provinces.json" ->
   helpers.load_provinces lenient json_load fs
   = helpers.load_provinces lenient json_load fs'
   /\ main.get_provinces lenient json_load fs
      = main.get_provinces lenient json_load fs'
   /\ forall province_id,
        main.get_province lenient json_load fs province_id
        = main.get_province lenient json_load fs' province_id)
  /\ (fs !! "static" = fs' !! "static" ->
      main._get_map_layer_files fs = main._get_map_layer_files fs'
      /\ main.get_map_layers fs = main.get_map_layers fs').
Proof.
  split.
  - intros H.
    assert (helpers.load_provinces lenient json_load fs
            = helpers.load_provinces lenient json_load fs') as Hload.
    { unfold helpers.load_provinces, Path_exists, Path_open,
        helpers.PROVINCES_FILE. by rewrite H. }
    split; [exact Hload|].
    assert (main.load_provinces lenient json_load fs
            = main.load_provinces lenient json_load fs') as Hmain.
    { rewrite <- (load_provinces_helpers_main_eq lenient json_load fs).
      rewrite <- (load_provinces_helpers_main_eq lenient json_load fs').
      exact Hload. }
    unfold main.get_provinces, main.get_province. rewrite Hmain.
    split; [reflexivity | intros province_id; reflexivity].
  - intros H.
    assert (main._get_map_layer_files fs = main._get_map_layer_files fs')
      as Hfiles.
    { unfold main._get_map_layer_files, Path_exists, Path_glob. by rewrite H. }
    split; [exact Hfiles|]. unfold main.get_map_layers. by rewrite Hfiles.
Qed.

Lemma endpoints_read_their_own_path_witness :
  let fs := fs_with_provinces text_scotland in
  let fs' : filesystem := <["static" := Directory ["world_map.png"]]> fs in
  (main.get_provinces lenient_none sample_decoder fs
   = main.get_provinces lenient_none sample_decoder fs'
   /\ main.get_province lenient_none sample_decoder fs "SCO"
      = main.get_province lenient_none sample_decoder fs' "SCO")
  /\ main.get_map_layers (<["static" := Directory ["world_map.png"]]> ∅)
     = main.get_map_layers fs'.
Proof.
  intros fs fs'.
  split.
  - destruct (proj1 (endpoints_read_their_own_path lenient_none
                       sample_decoder fs fs'))
      as (_ & Hall & Hone); [reflexivity|].
    split; [exact Hall | apply Hone].
  - apply (proj2 (endpoints_read_their_own_path lenient_none sample_decoder
                    (<["static" := Directory ["world_map.png"]]> ∅) fs')).
    reflexivity.
Defined.

(** ** What is stored is what is served *)

(** X18. When the file decodes to a document in the documented format, a
    lookup by a key of its [provinces] object answers with the very record
    stored there, unless that record holds a lone surrogate, in which case
    building the response raises [UnicodeEncodeError]. *)
Theorem get_province_returns_stored_record
  (lenient : string -> error_type + Z)
  (json_load : string -> result pyobj) (fs : filesystem) (content : string)
  (d ps : gmap string pyobj) (k : string) (record : pyobj) :
  fs !! "provinces.json" = Some (RegularFile content) ->
  json_load content = inr (PyDict d) ->
  provinces_format (PyDict d) = true ->
  d !! "provinces" = Some (PyDict ps) ->
  ps !! k = Some record ->
  main.get_province lenient json_load fs k
  = if any_str has_lone_surrogate record
    then inl UnicodeEncodeError
    else inr (main.mkJSONResponse record).
Proof.
  intros Hfs Hj Hfmt Hd Hk.
  destruct (provinces_format_roundtrip lenient (PyDict d) Hfmt)
    as (pd & Hv & Hdump).
  assert (main.load_provinces lenient json_load fs = inr pd) as Hload.
  { rewrite <- load_provinces_helpers_main_eq.
    rewrite (load_provinces_regular_file _ _ _ _ Hfs), Hj. exact Hv. }
  unfold main.get_province. rewrite Hload. cbv beta iota delta [bind].
  unfold ProvincesData.model_dump in Hdump. injection Hdump as Hdump.
  assert ((Province.model_dump <$> ProvincesData.provinces pd) !! k
          = Some record) as Hrec.
  { assert (d !! "provinces"
            = Some (PyDict (Province.model_dump <$> ProvincesData.provinces pd)))
      as Hd' by (rewrite <- Hdump; apply lookup_insert_eq).
    rewrite Hd in Hd'. injection Hd' as <-. exact Hk. }
  rewrite lookup_fmap in Hrec.
  destruct (ProvincesData.provinces pd !! k) as [p|];
    [|discriminate Hrec].
  injection Hrec as <-. apply JSONResponse_init_Province.
Qed.

Lemma get_province_returns_stored_record_witness :
  main.get_province lenient_none sample_decoder
    (fs_with_provinces text_scotland) "SCO"
  = inr (main.mkJSONResponse (PyDict scotland))
  /\ main.get_province lenient_none sample_decoder
       (fs_with_provinces text_unnamed) "SCO"
     = inl UnicodeEncodeError.
Proof.
  split.
  - rewrite (get_province_returns_stored_record lenient_none sample_decoder
               (fs_with_provinces text_scotland) text_scotland
               (root_of (provinces_of "SCO" scotland))
               (provinces_of "SCO" scotland) "SCO" (PyDict scotland));
      vm_compute; reflexivity.
  - rewrite (get_province_returns_stored_record lenient_none sample_decoder
               (fs_with_provinces text_unnamed) text_unnamed
               (root_of (provinces_of "SCO" unnamed))
               (provinces_of "SCO" unnamed) "SCO" (PyDict unnamed));
      vm_compute; reflexivity.
Defined.

(** X19. When the file decodes to a document in the documented format, the
    listing answers with that very document, unless one of its strings
    holds a lone surrogate, in which case building the response raises
    [UnicodeEncodeError]. *)
Theorem get_provinces_returns_stored_document
  (lenient : string -> error_type + Z)
  (json_load : string -> result pyobj) (fs : filesystem) (content : string)
  (doc : pyobj) :
  fs !! "provinces.json" = Some (RegularFile content) ->
  json_load content = inr doc ->
  provinces_format doc = true ->
  main.get_provinces lenient json_load fs
  = if any_str has_lone_surrogate doc
    then inl UnicodeEncodeError
    else inr (main.mkJSONResponse doc).
Proof.
  intros Hfs Hj Hfmt.
  destruct (provinces_format_roundtrip lenient doc Hfmt) as (pd & Hv & Hdump).
  assert (main.load_provinces lenient json_load fs = inr pd) as Hload.
  { rewrite <- load_provinces_helpers_main_eq.
    rewrite (load_provinces_regular_file _ _ _ _ Hfs), Hj. exact Hv. }
  unfold main.get_provinces. rewrite Hload. cbv beta iota delta [bind].
  rewrite <- Hdump. apply JSONResponse_init_ProvincesData.
Qed.

Lemma get_provinces_returns_stored_document_witness :
  main.get_provinces lenient_none sample_decoder
    (fs_with_provinces text_scotland)
  = inr (main.mkJSONResponse (document_of "SCO" scotland))
  /\ main.get_provinces lenient_none sample_decoder
       (fs_with_provinces text_unnamed)
     = inl UnicodeEncodeError.
Proof.
  split.
  - rewrite (get_provinces_returns_stored_document lenient_none
               sample_decoder (fs_with_provinces text_scotland)
               text_scotland (document_of "SCO" scotland));
      vm_compute; reflexivity.
  - rewrite (get_provinces_returns_stored_document lenient_none
               sample_decoder (fs_with_provinces text_unnamed)
               text_unnamed (document_of "SCO" unnamed));
      vm_compute; reflexivity.
Defined.
